(** * Insurance premium predictor and patient record API

    A shallow embedding of the two FastAPI services of the repository:

    - [App]  (app.py):  the derived features of a premium applicant
      ([bmi], [lifestyle_risk], [age_group], [city_tier]);
    - [Main] (main.py): the patient model with its computed fields, the
      partial update model, and the handlers that load, mutate and save
      the JSON document [patients.json].

    Numbers.  Python's [int] is [Z].  Python's [float] is read as an exact
    rational ([Q]): division and squaring are the field operations, and
    [round(x, 2)] is rounding to the nearest multiple of 1/100 with ties
    to the even neighbour (which is what CPython computes on the exact
    value of its argument).  Binary64 rounding of the individual
    operations is outside this model; where the interpreter raises
    instead of returning a number is recorded in [Computed.raises].

    State.  The only state that outlives a request is the JSON document;
    a handler is a function from the document to a result and the
    document left behind. *)

From Stdlib Require Import ZArith QArith Qround List String Bool Lia Lqa.
From Stdlib Require Import Permutation Sorted.
Import ListNotations.

Local Open Scope Z_scope.

(* ------------------------------------------------------------------ *)
(** * Python values used by both services                              *)
(* ------------------------------------------------------------------ *)

Module Py.

(** [x < y] on numbers. *)
Definition lt (x y : Q) : bool := negb (Qle_bool y x).

(** [x > y] on numbers. *)
Definition gt (x y : Q) : bool := lt y x.

(** [s in l] for a list of strings: exact, case-sensitive equality. *)
Definition str_in (s : string) (l : list string) : bool :=
  existsb (String.eqb s) l.

(** Nearest integer, ties to the even neighbour. *)
Definition round_half_even (x : Q) : Z :=
  let f := Qfloor x in
  match (x - inject_Z f ?= 1 # 2)%Q with
  | Lt => f
  | Gt => f + 1
  | Eq => if Z.even f then f else f + 1
  end.

(** [round(x, ndigits)] for a non-negative [ndigits]. *)
Definition round (x : Q) (ndigits : nat) : Q :=
  let scale := Pos.of_nat (10 ^ ndigits) in
  Qmake (round_half_even (x * inject_Z (Zpos scale))) scale.

(** What [json.load] yields inside a patient record: [None], an [int],
    a [float] or a [str]. *)
Inductive value : Type :=
| VNone
| VInt (n : Z)
| VFloat (q : Q)
| VStr (s : string).

(** A [dict] with string keys, in insertion order. *)
Definition dict (V : Type) : Type := list (string * V).

(** [k in d] *)
Definition dict_mem {V} (k : string) (d : dict V) : bool :=
  existsb (fun kv => String.eqb k (fst kv)) d.

(** [d.get(k)] *)
Fixpoint dict_get {V} (k : string) (d : dict V) : option V :=
  match d with
  | [] => None
  | (k', v) :: d' => if String.eqb k k' then Some v else dict_get k d'
  end.

(** [d.get(k, default)] *)
Definition dict_get_default {V} (k : string) (default : V) (d : dict V) : V :=
  match dict_get k d with
  | Some v => v
  | None => default
  end.

(** [d[k] = v]: an existing key keeps its position, a new key goes last. *)
Fixpoint dict_set {V} (k : string) (v : V) (d : dict V) : dict V :=
  match d with
  | [] => [(k, v)]
  | (k', v') :: d' =>
      if String.eqb k k' then (k', v) :: d' else (k', v') :: dict_set k v d'
  end.

(** [del d[k]] *)
Fixpoint dict_del {V} (k : string) (d : dict V) : dict V :=
  match d with
  | [] => []
  | (k', v') :: d' =>
      if String.eqb k k' then d' else (k', v') :: dict_del k d'
  end.

(** [d.values()] *)
Definition dict_values {V} (d : dict V) : list V := map snd d.

(** [for key, value in src.items(): d[key] = value] *)
Definition dict_update {V} (d src : dict V) : dict V :=
  fold_left (fun acc kv => dict_set (fst kv) (snd kv) acc) src d.

(** [a < b] between two values: numbers compare by value, strings
    lexicographically, anything else is a [TypeError] ([None] here). *)
Definition value_lt (a b : value) : option bool :=
  match a, b with
  | VInt m, VInt n => Some (m <? n)
  | VInt m, VFloat q => Some (lt (inject_Z m) q)
  | VFloat p, VInt n => Some (lt p (inject_Z n))
  | VFloat p, VFloat q => Some (lt p q)
  | VStr s, VStr t => Some (String.ltb s t)
  | _, _ => None
  end.

(** One step of a stable insertion: [x] goes in front of the first
    element that is not smaller than it. *)
Fixpoint insert {A} (key : A -> value) (x : A) (l : list A) : option (list A) :=
  match l with
  | [] => Some [x]
  | y :: l' =>
      match value_lt (key y) (key x) with
      | None => None
      | Some true =>
          match insert key x l' with
          | Some r => Some (y :: r)
          | None => None
          end
      | Some false => Some (x :: l)
      end
  end.

(** Stable ascending sort that only ever asks [<] of two keys.  CPython
    sorts with a stable merge sort; on keys that can all be compared
    every stable sort returns the same list, and with two keys that
    cannot be compared both raise. *)
Fixpoint sort {A} (key : A -> value) (l : list A) : option (list A) :=
  match l with
  | [] => Some []
  | x :: l' =>
      match sort key l' with
      | Some s => insert key x s
      | None => None
      end
  end.

(** [sorted(l, key=key, reverse=reverse)].  As in CPython, a reversed
    sort reverses the input, sorts ascending and reverses the outcome, so
    that equal keys keep their original relative order either way.
    [None] stands for the [TypeError] of an unsupported comparison. *)
Definition sorted {A} (l : list A) (key : A -> value) (reverse : bool)
  : option (list A) :=
  if reverse then option_map (@rev A) (sort key (rev l)) else sort key l.

End Py.

(* ------------------------------------------------------------------ *)
(** * app.py: the premium service                                      *)
(* ------------------------------------------------------------------ *)

Module App.

(** Tier 1 cities (metro) *)
Definition tier_1_cities : list string :=
  ["Islamabad"; "Karachi"; "Lahore"; "Peshawar"; "Quetta"; "Rawalpindi";
   "Faisalabad"]%string.

(** Tier 2 cities (developed but smaller than Tier 1) *)
Definition tier_2_cities : list string :=
  ["Multan"; "Gujranwala"; "Hyderabad"; "Sialkot"; "Bahawalpur"; "Sargodha";
   "Sukkur"; "Larkana"; "Sheikhupura";
   "Abbottabad"; "Jhelum"; "Gujrat"; "Mardan"; "Kasur"; "Okara"; "Sahiwal";
   "Turbat"; "Mingora"; "Nawabshah";
   "Chiniot"; "Kohat"; "Muzaffarabad"; "Gilgit"; "Kotli"; "Skardu"; "Khuzdar";
   "Bannu"; "Gwadar"; "Jhang"; "Hafizabad";
   "Kamoke"; "Jacobabad"; "Shikarpur"; "Charsadda"; "Mansehra"; "Narowal";
   "Vehari"; "Layyah"; "Attock"; "Lodhran";
   "Badin"; "Khanewal"; "Bhakkar"; "Haripur"; "Swabi"; "Jamshoro"; "Gojra";
   "Chakwal"; "Jaranwala"; "Khanpur"; "Kamalia";
   "Daska"; "Nowshera"; "Thatta"; "Pakpattan"; "Jaccobabad"; "Samundri";
   "Muridke"; "Mianwali"; "Kandhkot"; "Shahdadpur";
   "Shahkot"; "Arifwala"; "Pattoki"; "Shikarpur"; "Hangu"; "Charsadda";
   "Burewala"; "Jatoi"]%string.

(** The values of the [Literal] type of [occupation]. *)
Definition occupations : list string :=
  ["retired"; "freelancer"; "student"; "government_job";
   "business_owner"; "unemployed"; "private_job"]%string.

Module UserInput.

Record t : Type := {
  age : Z;
  weight : Q;
  height : Q;
  income_lpa : Q;
  smoker : bool;
  city : string;
  occupation : string
}.

(** The [Field] constraints: an instance exists only when they hold. *)
Definition valid (self : t) : bool :=
  (0 <? age self) && (age self <? 120)
  && Py.gt (weight self) 0
  && Py.gt (height self) 0 && Py.lt (height self) (25 # 10)
  && Py.gt (income_lpa self) 0
  && Py.str_in (occupation self) occupations.

Definition bmi (self : t) : Q :=
  (weight self / (height self ^ 2))%Q.

Definition lifestyle_risk (self : t) : string :=
  if smoker self && Py.gt (bmi self) (30 # 1) then "high"%string
  else if smoker self || Py.gt (bmi self) (27 # 1) then "medium"%string
  else "low"%string.

Definition age_group (self : t) : string :=
  if age self <? 25 then "young"%string
  else if age self <? 45 then "adult"%string
  else if age self <? 60 then "middle_aged"%string
  else "senior"%string.

Definition city_tier (self : t) : Z :=
  if Py.str_in (city self) tier_1_cities then 1
  else if Py.str_in (city self) tier_2_cities then 2
  else 3.

End UserInput.

End App.

(* ------------------------------------------------------------------ *)
(** * main.py: the patient service                                     *)
(* ------------------------------------------------------------------ *)

Module Main.

Import Py.

(** A stored patient: one JSON object of [patients.json]. *)
Definition record : Type := dict value.

(** The whole document: patient id to stored patient. *)
Definition store : Type := dict record.

(** ** The validation library's conversions

    The models are validated in lax mode.  Of the conversions the library
    applies, the ones that matter for values coming out of a JSON
    document are kept: a [float] field takes an [int], an [int] field
    takes a [float] without fractional part, a [str] field takes a [str]
    only, and no field declared here takes [None].  Numeric strings are
    treated as type errors. *)

Definition as_str (v : value) : option string :=
  match v with
  | VStr s => Some s
  | _ => None
  end.

Definition as_int (v : value) : option Z :=
  match v with
  | VInt n => Some n
  | VFloat q =>
      if Qeq_bool q (inject_Z (Qfloor q)) then Some (Qfloor q) else None
  | _ => None
  end.

Definition as_float (v : value) : option Q :=
  match v with
  | VFloat q => Some q
  | VInt n => Some (inject_Z n)
  | _ => None
  end.

(** A required field of type [conv] that must also pass [check]. *)
Definition required {A} (kwargs : record) (k : string)
  (conv : value -> option A) (check : A -> bool) : option A :=
  match dict_get k kwargs with
  | None => None
  | Some v =>
      match conv v with
      | Some a => if check a then Some a else None
      | None => None
      end
  end.

(** The values of the [Literal] type of [gender]. *)
Definition genders : list string := ["male"; "female"; "other"]%string.

Definition any {A} (_ : A) : bool := true.
Definition age_ok (n : Z) : bool := (0 <? n) && (n <? 120).
Definition gender_ok (s : string) : bool := str_in s genders.
Definition positive (q : Q) : bool := gt q 0.

(** ** class Patient *)

Module Patient.

Record t : Type := {
  id : string;
  name : string;
  city : string;
  age : Z;
  gender : string;
  height : Q;
  weight : Q
}.

Definition bmi (self : t) : Q :=
  round (weight self / (height self ^ 2))%Q 2.

Definition verdict (self : t) : string :=
  if lt (bmi self) (185 # 10) then "Underweight"%string
  else if lt (bmi self) (25 # 1) then "Normal"%string
  else if lt (bmi self) (30 # 1) then "Overweight"%string
  else "Obese"%string.

(** The [Field] constraints: an instance exists only when they hold. *)
Definition valid (self : t) : bool :=
  age_ok (age self) && gender_ok (gender self)
  && positive (height self) && positive (weight self).

(** The constructor applied to the keywords of a dictionary: every
    declared field is required, converted and checked; keys that are not
    declared fields are ignored.  [None] is the library's
    [ValidationError]. *)
Definition init (kwargs : record) : option t :=
  match required kwargs "id" as_str any,
        required kwargs "name" as_str any,
        required kwargs "city" as_str any,
        required kwargs "age" as_int age_ok,
        required kwargs "gender" as_str gender_ok,
        required kwargs "height" as_float positive,
        required kwargs "weight" as_float positive
  with
  | Some i, Some n, Some c, Some a, Some g, Some h, Some w =>
      Some {| id := i; name := n; city := c; age := a; gender := g;
              height := h; weight := w |}
  | _, _, _, _, _, _, _ => None
  end.

(** [self.model_dump(exclude=['id'])]: the declared fields but [id], then
    the computed fields. *)
Definition model_dump (self : t) : record :=
  [ ("name"%string, VStr (name self));
    ("city"%string, VStr (city self));
    ("age"%string, VInt (age self));
    ("gender"%string, VStr (gender self));
    ("height"%string, VFloat (height self));
    ("weight"%string, VFloat (weight self));
    ("bmi"%string, VFloat (bmi self));
    ("verdict"%string, VStr (verdict self)) ].

End Patient.

(** ** class PatientUpdate *)

Module PatientUpdate.

(** An optional field of the request body: left out, or sent, and then
    either as [null] or with a value. *)
Inductive field (A : Type) : Type :=
| Unset
| Sent (v : option A).
Arguments Unset {A}.
Arguments Sent {A} v.

Record t : Type := {
  name : field string;
  city : field string;
  age : field Z;
  gender : field string;
  height : field Q;
  weight : field Q
}.

Definition field_ok {A} (check : A -> bool) (f : field A) : bool :=
  match f with
  | Sent (Some a) => check a
  | _ => true
  end.

(** The [Field] constraints: an instance exists only when they hold. *)
Definition valid (self : t) : bool :=
  field_ok age_ok (age self) && field_ok gender_ok (gender self)
  && field_ok positive (height self) && field_ok positive (weight self).

Definition dump_field {A} (k : string) (inj : A -> value) (f : field A)
  : record :=
  match f with
  | Unset => []
  | Sent None => [(k, VNone)]
  | Sent (Some a) => [(k, inj a)]
  end.

(** [self.model_dump(exclude_unset=True)]: the fields that were sent, in
    declaration order, a [null] included. *)
Definition model_dump (self : t) : record :=
  dump_field "name" VStr (name self)
  ++ dump_field "city" VStr (city self)
  ++ dump_field "age" VInt (age self)
  ++ dump_field "gender" VStr (gender self)
  ++ dump_field "height" VFloat (height self)
  ++ dump_field "weight" VFloat (weight self).

End PatientUpdate.

(** ** Handlers *)

Inductive exn : Type :=
| HTTPException (status_code : Z) (detail : string)
| ValidationError
| TypeError
| KeyError.

Inductive result (A : Type) : Type :=
| Ok (a : A)
| Raise (e : exn).
Arguments Ok {A} a.
Arguments Raise {A} e.

(** A computation over the persisted document. *)
Definition M (A : Type) : Type := store -> result A * store.

Definition ret {A} (a : A) : M A := fun file => (Ok a, file).

Definition bind {A B} (m : M A) (k : A -> M B) : M B :=
  fun file =>
    match m file with
    | (Ok a, file') => k a file'
    | (Raise e, file') => (Raise e, file')
    end.

Definition raise {A} (e : exn) : M A := fun file => (Raise e, file).

Notation "x <- m ;; k" := (bind m (fun x => k))
  (at level 61, m at next level, right associativity).

(** Load patient data from JSON file *)
Definition load_data : M store := fun file => (Ok file, file).

(** Save patient data back to JSON file *)
Definition save_data (data : store) : M unit := fun _ => (Ok tt, data).

Inductive JSONResponse : Type :=
| Response (status_code : Z) (message : string).

(** View all patient data *)
Definition view : M store :=
  data <- load_data ;;
  ret data.

(** Get a single patient's data by ID *)
Definition view_patient (patient_id : string) : M record :=
  data <- load_data ;;
  match dict_get patient_id data with
  | Some r => ret r
  | None => raise (HTTPException 404 "patient data not found")
  end.

(** Sort patient data by a given field and order; [order = None] is a
    request without the query parameter. *)
Definition sort_patient (sort_by : string) (order : option string)
  : M (list record) :=
  let order := match order with Some o => o | None => "asc"%string end in
  let valid_fields := ["height"; "weight"; "bmi"]%string in
  if negb (str_in sort_by valid_fields) then
    raise (HTTPException 400 "Invalid field select from {valid_fields}")
  else if negb (str_in order ["asc"; "desc"]%string) then
    raise (HTTPException 400 "Invalid order select between asc and desc")
  else
    data <- load_data ;;
    let sort_order := if String.eqb order "desc" then true else false in
    match sorted (dict_values data)
                 (fun x => dict_get_default sort_by (VInt 0) x) sort_order with
    | Some sorted_data => ret sorted_data
    | None => raise TypeError
    end.

(** Create a new patient record *)
Definition create_patient (patient : Patient.t) : M JSONResponse :=
  data <- load_data ;;
  if dict_mem (Patient.id patient) data then
    raise (HTTPException 400 "Patient already exists")
  else
    let data := dict_set (Patient.id patient) (Patient.model_dump patient) data in
    _ <- save_data data ;;
    ret (Response 201 "Patient Data Created Successful").

(** Update an existing patient's info.  The record taken out of [data]
    is the object held by [data], so the two assignments that mutate it
    are written back into [data] at once. *)
Definition update_patient (patient_id : string) (patient_update : PatientUpdate.t)
  : M JSONResponse :=
  data <- load_data ;;
  if negb (dict_mem patient_id data) then
    raise (HTTPException 404 "Patient data not found")
  else
    match dict_get patient_id data with
    | None => raise KeyError
    | Some existing_patient_info =>
        let updated_patient_info := PatientUpdate.model_dump patient_update in
        let existing_patient_info :=
          dict_update existing_patient_info updated_patient_info in
        let existing_patient_info :=
          dict_set "id" (VStr patient_id) existing_patient_info in
        let data := dict_set patient_id existing_patient_info data in
        match Patient.init existing_patient_info with
        | None => raise ValidationError
        | Some patient_pydandic_obj =>
            let existing_patient_info :=
              Patient.model_dump patient_pydandic_obj in
            let data := dict_set patient_id existing_patient_info data in
            _ <- save_data data ;;
            ret (Response 200 "Patient Data Updated")
        end
    end.

(** Delete a patient by ID *)
Definition delete_patient (patient_id : string) : M JSONResponse :=
  data <- load_data ;;
  if negb (dict_mem patient_id data) then
    raise (HTTPException 404 "Patient Data not found")
  else
    let data := dict_del patient_id data in
    _ <- save_data data ;;
    ret (Response 200 "patient deleted").

End Main.

(* ------------------------------------------------------------------ *)
(** * Sample data                                                      *)
(* ------------------------------------------------------------------ *)

Module Samples.

Import Py Main.

(** A smoker of 90 kg and 1.7 m. *)
Definition applicant : App.UserInput.t :=
  {| App.UserInput.age := 30;
     App.UserInput.weight := 90 # 1;
     App.UserInput.height := 17 # 10;
     App.UserInput.income_lpa := 10 # 1;
     App.UserInput.smoker := true;
     App.UserInput.city := "Lahore"%string;
     App.UserInput.occupation := "private_job"%string |}.

(** A patient of the same weight and height. *)
Definition patient : Patient.t :=
  {| Patient.id := "P001";
     Patient.name := "Ayesha Khan";
     Patient.city := "Lahore";
     Patient.age := 30;
     Patient.gender := "female";
     Patient.height := 17 # 10;
     Patient.weight := 90 # 1 |}.

(** The document after that patient was created in an empty one. *)
Definition one_patient : store :=
  [("P001"%string, Patient.model_dump patient)].

(** A payload that moves the patient and changes the weight. *)
Definition move_and_slim : PatientUpdate.t :=
  {| PatientUpdate.name := PatientUpdate.Unset;
     PatientUpdate.city := PatientUpdate.Sent (Some "Multan"%string);
     PatientUpdate.age := PatientUpdate.Unset;
     PatientUpdate.gender := PatientUpdate.Unset;
     PatientUpdate.height := PatientUpdate.Unset;
     PatientUpdate.weight := PatientUpdate.Sent (Some (60 # 1)) |}.

(** A payload that sends [null] for the city. *)
Definition null_city : PatientUpdate.t :=
  {| PatientUpdate.name := PatientUpdate.Unset;
     PatientUpdate.city := PatientUpdate.Sent None;
     PatientUpdate.age := PatientUpdate.Unset;
     PatientUpdate.gender := PatientUpdate.Unset;
     PatientUpdate.height := PatientUpdate.Unset;
     PatientUpdate.weight := PatientUpdate.Sent (Some (60 # 1)) |}.

(** A document, as it may be written by hand, whose only record carries
    a bmi and a verdict that do not belong to its height and weight:
    80 kg at 2 m is a bmi of 20, "Normal". *)
Definition stale_record : record :=
  [("name"%string, VStr "Bilal Ahmed");
   ("city"%string, VStr "Karachi");
   ("age"%string, VInt 41);
   ("gender"%string, VStr "male");
   ("height"%string, VFloat (2 # 1));
   ("weight"%string, VFloat (80 # 1));
   ("bmi"%string, VFloat (3306 # 100));
   ("verdict"%string, VStr "Obese")].

Definition stale : store := [("P007"%string, stale_record)].

(** A record written by hand with whole numbers for height and weight. *)
Definition whole_numbers : record :=
  [("name"%string, VStr "Bilal Ahmed");
   ("city"%string, VStr "Karachi");
   ("age"%string, VInt 41);
   ("gender"%string, VStr "male");
   ("height"%string, VInt 2);
   ("weight"%string, VInt 80);
   ("bmi"%string, VInt 20);
   ("verdict"%string, VStr "Normal")].

(** Four records for sorting: two share the weight 3 (once written as an
    integer), one lacks the field. *)
Definition heavy_int : record := [("weight"%string, VInt 3)].
Definition light : record := [("weight"%string, VFloat (2 # 1))].
Definition no_weight : record := [("height"%string, VFloat (1 # 1))].
Definition heavy_float : record :=
  [("weight"%string, VFloat (3 # 1)); ("height"%string, VFloat (1 # 1))].

Definition four : store :=
  [("a"%string, heavy_int); ("b"%string, light);
   ("c"%string, no_weight); ("d"%string, heavy_float)].

End Samples.

(* ------------------------------------------------------------------ *)
(** * Vocabulary of the properties                                     *)
(* ------------------------------------------------------------------ *)

Module Props.

Import Py Main.

(** Equality of two JSON values as written in the document. *)
Definition value_eqb (a b : value) : bool :=
  match a, b with
  | VNone, VNone => true
  | VInt m, VInt n => m =? n
  | VFloat p, VFloat q => (Qnum p =? Qnum q) && (Qden p =? Qden q)%positive
  | VStr s, VStr t => String.eqb s t
  | _, _ => false
  end.

(** The fields a client may send, and the fields a stored patient has. *)
Definition input_fields : list string :=
  ["name"; "city"; "age"; "gender"; "height"; "weight"]%string.

Definition stored_fields : list string :=
  input_fields ++ ["bmi"; "verdict"]%string.

(** A stored record read back as a patient, as the update handler does:
    the id is the key it is stored under. *)
Definition parse (patient_id : string) (r : record) : option Patient.t :=
  Patient.init (dict_set "id" (VStr patient_id) r).

(** The record the update handler hands to the patient constructor. *)
Definition merged (patient_id : string) (u : PatientUpdate.t) (r : record)
  : record :=
  dict_set "id" (VStr patient_id) (dict_update r (PatientUpdate.model_dump u)).

(** Partial update as the specification words it: a field that was sent
    with a value replaces the old one, any other field is kept. *)
Definition pick {A} (f : PatientUpdate.field A) (old : A) : A :=
  match f with
  | PatientUpdate.Sent (Some a) => a
  | _ => old
  end.

Definition merge_spec (u : PatientUpdate.t) (p : Patient.t) : Patient.t :=
  {| Patient.id := Patient.id p;
     Patient.name := pick (PatientUpdate.name u) (Patient.name p);
     Patient.city := pick (PatientUpdate.city u) (Patient.city p);
     Patient.age := pick (PatientUpdate.age u) (Patient.age p);
     Patient.gender := pick (PatientUpdate.gender u) (Patient.gender p);
     Patient.height := pick (PatientUpdate.height u) (Patient.height p);
     Patient.weight := pick (PatientUpdate.weight u) (Patient.weight p) |}.

(** A field sent as [null]. *)
Definition is_null {A} (f : PatientUpdate.field A) : bool :=
  match f with
  | PatientUpdate.Sent None => true
  | _ => false
  end.

Definition has_null (u : PatientUpdate.t) : bool :=
  is_null (PatientUpdate.name u) || is_null (PatientUpdate.city u)
  || is_null (PatientUpdate.age u) || is_null (PatientUpdate.gender u)
  || is_null (PatientUpdate.height u) || is_null (PatientUpdate.weight u).

(** The declared constraints of the patient model on a dictionary. *)
Definition has {A} (kwargs : record) (k : string)
  (conv : value -> option A) (P : A -> Prop) : Prop :=
  exists v a, dict_get k kwargs = Some v /\ conv v = Some a /\ P a.

Definition constraints (kwargs : record) : Prop :=
  has kwargs "id" as_str (fun _ => True) /\
  has kwargs "name" as_str (fun _ => True) /\
  has kwargs "city" as_str (fun _ => True) /\
  has kwargs "age" as_int (fun n => 1 <= n <= 119) /\
  has kwargs "gender" as_str (fun g => In g genders) /\
  has kwargs "height" as_float (fun h => (0 < h)%Q) /\
  has kwargs "weight" as_float (fun w => (0 < w)%Q).

(** The stored bmi and verdict of a record are the ones a fresh
    computation from its height and weight gives. *)
Definition derived_fresh (patient_id : string) (r : record) : bool :=
  match parse patient_id r with
  | Some p =>
      match dict_get "bmi" r, dict_get "verdict" r with
      | Some b, Some v =>
          value_eqb b (VFloat (Patient.bmi p))
          && value_eqb v (VStr (Patient.verdict p))
      | _, _ => false
      end
  | None => false
  end.

Definition store_fresh (file : store) : bool :=
  forallb (fun kv => derived_fresh (fst kv) (snd kv)) file.

(** The key the sort handler gives a record, and its numeric value. *)
Definition sort_key (sort_by : string) (r : record) : value :=
  dict_get_default sort_by (VInt 0) r.

Definition as_number (v : value) : option Q :=
  match v with
  | VInt n => Some (inject_Z n)
  | VFloat q => Some q
  | _ => None
  end.

(** The numeric value of the key of an element, and the test that every
    element of a list has one. *)
Definition number_of {A} (key : A -> value) (a : A) : Q :=
  match as_number (key a) with
  | Some q => q
  | None => 0
  end.

Definition numeric {A} (key : A -> value) (l : list A) : bool :=
  forallb (fun a => match as_number (key a) with
                    | Some _ => true
                    | None => false
                    end) l.

(** The elements of [l] whose key has the value [q], in their order. *)
Definition with_number {A} (key : A -> value) (q : Q) (l : list A) : list A :=
  filter (fun a => Qeq_bool (number_of key a) q) l.

Definition key_number (sort_by : string) (r : record) : Q :=
  number_of (sort_key sort_by) r.

(** Every record holds a number in the field, or lacks the field. *)
Definition numeric_keys (sort_by : string) (l : list record) : bool :=
  numeric (sort_key sort_by) l.

(** The records of [l] whose key has the value [q], in their order. *)
Definition with_key (sort_by : string) (q : Q) (l : list record)
  : list record :=
  with_number (sort_key sort_by) q l.

(** Ascending and descending order of the keys. *)
Definition ascending {A} (key : A -> value) (l : list A) : Prop :=
  StronglySorted (fun a b => (number_of key a <= number_of key b)%Q) l.

Definition descending {A} (key : A -> value) (l : list A) : Prop :=
  StronglySorted (fun a b => (number_of key b <= number_of key a)%Q) l.

End Props.

(* ------------------------------------------------------------------ *)
(** * app.py: the prediction endpoint                                  *)
(* ------------------------------------------------------------------ *)

Module Predict.

(** The one row of the data frame the endpoint builds. *)
Record row : Type := {
  bmi : Q;
  age_group : string;
  lifestyle_risk : string;
  city_tier : Z;
  income_lpa : Q;
  city : string;
  occupation : string
}.

Record JSONResponse : Type := {
  status_code : Z;
  predicted_category : string
}.

Section Endpoint.

(** The unpickled model, used as [model.predict(input_df)[0]] on a frame
    of one row. *)
Variable model_predict : row -> string.

(** Construct DataFrame with engineered features *)
Definition input_df (data : App.UserInput.t) : row :=
  {| bmi := App.UserInput.bmi data;
     age_group := App.UserInput.age_group data;
     lifestyle_risk := App.UserInput.lifestyle_risk data;
     city_tier := App.UserInput.city_tier data;
     income_lpa := App.UserInput.income_lpa data;
     city := App.UserInput.city data;
     occupation := App.UserInput.occupation data |}.

Definition predict_premium (data : App.UserInput.t) : JSONResponse :=
  let prediction := model_predict (input_df data) in
  {| status_code := 200; predicted_category := prediction |}.

End Endpoint.

End Predict.

(* ------------------------------------------------------------------ *)
(** * frontend.py: the input form                                      *)
(* ------------------------------------------------------------------ *)

Module Frontend.

(** What the widgets of the form hold when it is submitted. *)
Record form : Type := {
  age : Z;
  weight : Q;
  income_lpa : Q;
  smoker : bool;
  height : Q;
  city : string;
  occupation : string
}.

(** The options of the occupation select box. *)
Definition occupation_options : list string :=
  ["retired"; "freelancer"; "student"; "government_job"; "business_owner";
   "unemployed"; "private_job"]%string.

(** The values the widgets let through: [min_value] and [max_value] of a
    number input are both permitted values, a select box yields one of
    its options, the text input any text. *)
Definition accepted (f : form) : bool :=
  (1 <=? age f) && (age f <=? 119)
  && Qle_bool (1 # 1) (weight f)
  && Qle_bool (1 # 10) (income_lpa f)
  && Qle_bool (5 # 10) (height f) && Qle_bool (height f) (25 # 10)
  && Py.str_in (occupation f) occupation_options.

(** Pack inputs into JSON: the body the endpoint receives. *)
Definition input_data (f : form) : App.UserInput.t :=
  {| App.UserInput.age := age f;
     App.UserInput.weight := weight f;
     App.UserInput.height := height f;
     App.UserInput.income_lpa := income_lpa f;
     App.UserInput.smoker := smoker f;
     App.UserInput.city := city f;
     App.UserInput.occupation := occupation f |}.

End Frontend.

(* ------------------------------------------------------------------ *)
(** * Further vocabulary and sample data                               *)
(* ------------------------------------------------------------------ *)

Module Order.

(** The verdicts and the risks, from the lightest to the gravest. *)
Definition verdict_rank (v : string) : Z :=
  if String.eqb v "Underweight" then 0
  else if String.eqb v "Normal" then 1
  else if String.eqb v "Overweight" then 2
  else 3.

Definition risk_rank (r : string) : Z :=
  if String.eqb r "low" then 0
  else if String.eqb r "medium" then 1
  else 2.

End Order.

Module MoreSamples.

Import Py Main.

(** A payload that sends nothing. *)
Definition nothing_sent : PatientUpdate.t :=
  {| PatientUpdate.name := PatientUpdate.Unset;
     PatientUpdate.city := PatientUpdate.Unset;
     PatientUpdate.age := PatientUpdate.Unset;
     PatientUpdate.gender := PatientUpdate.Unset;
     PatientUpdate.height := PatientUpdate.Unset;
     PatientUpdate.weight := PatientUpdate.Unset |}.

(** The form as it opens. *)
Definition default_form : Frontend.form :=
  {| Frontend.age := 30;
     Frontend.weight := 65 # 1;
     Frontend.income_lpa := 10 # 1;
     Frontend.smoker := false;
     Frontend.height := 17 # 10;
     Frontend.city := "Karachi";
     Frontend.occupation := "retired" |}.

(** The same form with the height at the upper end of its widget. *)
Definition tallest_form : Frontend.form :=
  {| Frontend.age := 30;
     Frontend.weight := 65 # 1;
     Frontend.income_lpa := 10 # 1;
     Frontend.smoker := false;
     Frontend.height := 25 # 10;
     Frontend.city := "Karachi";
     Frontend.occupation := "retired" |}.

(** A second patient. *)
Definition patient2 : Patient.t :=
  {| Patient.id := "P002";
     Patient.name := "Omar Farooq";
     Patient.city := "Multan";
     Patient.age := 52;
     Patient.gender := "male";
     Patient.height := 18 # 10;
     Patient.weight := 70 # 1 |}.

(** A document of two records, one of them without a height and one with
    a height of [null]. *)
Definition null_height : store :=
  [("a"%string, [("weight"%string, VFloat (70 # 1))]);
   ("b"%string, [("height"%string, VNone)])].

(** A model that answers with the lifestyle risk it is shown. *)
Definition echo_risk (r : Predict.row) : string := Predict.lifestyle_risk r.

End MoreSamples.

Module Payload.

Import Main.

(** A field sent with a value. *)
Definition has_value {A} (f : PatientUpdate.field A) : bool :=
  match f with
  | PatientUpdate.Sent (Some _) => true
  | _ => false
  end.

(** A payload that sends a value for each of the six fields. *)
Definition complete (u : PatientUpdate.t) : bool :=
  has_value (PatientUpdate.name u) && has_value (PatientUpdate.city u)
  && has_value (PatientUpdate.age u) && has_value (PatientUpdate.gender u)
  && has_value (PatientUpdate.height u) && has_value (PatientUpdate.weight u).

(** A complete payload, and a stored record that no patient could be. *)
Definition everything : PatientUpdate.t :=
  {| PatientUpdate.name := PatientUpdate.Sent (Some "Hina Raza"%string);
     PatientUpdate.city := PatientUpdate.Sent (Some "Sialkot"%string);
     PatientUpdate.age := PatientUpdate.Sent (Some 27);
     PatientUpdate.gender := PatientUpdate.Sent (Some "female"%string);
     PatientUpdate.height := PatientUpdate.Sent (Some (16 # 10));
     PatientUpdate.weight := PatientUpdate.Sent (Some (55 # 1)) |}.

Definition broken : store :=
  [("P009"%string, [("name"%string, Py.VNone); ("age"%string, Py.VInt 300)])].

End Payload.

(* ------------------------------------------------------------------ *)
(** * Where the computed fields can be evaluated                       *)
(* ------------------------------------------------------------------ *)

(** The handlers above are the handlers on patients whose computed
    fields evaluate.  In the interpreter [height ** 2] raises
    [OverflowError] when the square is too large for a binary64 number,
    and the division raises [ZeroDivisionError] when the square is so
    small that it is rounded to zero; [model_dump] evaluates the
    computed fields, so a create or an update of such a patient ends
    with that exception and saves nothing.  [Computed.raises] says which
    exception that is; where a statement needs the computed fields of a
    patient to evaluate, it says so by the hypothesis that there is
    none. *)

Module Float.

(** The largest binary64 number. *)
Definition largest : Z := 2 ^ 1024 - 2 ^ 971.

(** From here on a number is rounded to infinity. *)
Definition overflow_from : Q := inject_Z (2 ^ 1024 - 2 ^ 970).

(** Up to here a positive number is rounded to zero. *)
Definition zero_upto : Q := Qmake 1 (2 ^ 1075).

End Float.

Module Computed.

Inductive arithmetic_error : Type :=
| OverflowError
| ZeroDivisionError.

(** The exception of [weight / (height ** 2)], if any. *)
Definition quotient_raises (height : Q) : option arithmetic_error :=
  if Qle_bool Float.overflow_from (height * height) then Some OverflowError
  else if Qle_bool (height * height) Float.zero_upto
       then Some ZeroDivisionError
       else None.

(** The exception of evaluating the computed fields of a patient. *)
Definition raises (self : Main.Patient.t) : option arithmetic_error :=
  quotient_raises (Main.Patient.height self).

End Computed.

(** The numbers of a stored record as the model of the conversions
    covers them: under [age], [height] and [weight] there is no string,
    which the validation library would parse, and no integer beyond the
    binary64 range. *)

Module Typing.

Import Py.

Definition fits (v : option value) : bool :=
  match v with
  | Some (VStr _) => false
  | Some (VInt n) => Z.abs n <=? Float.largest
  | _ => true
  end.

Definition numbers_fit (r : Main.record) : bool :=
  fits (dict_get "age" r) && fits (dict_get "height" r)
  && fits (dict_get "weight" r).

(** The same for the record stored under an id, if there is one. *)
Definition numbers_fit_at (patient_id : string) (file : Main.store) : bool :=
  match dict_get patient_id file with
  | Some r => numbers_fit r
  | None => true
  end.

End Typing.

Module ExtremeSamples.

Import Main.

(** Two patients that pass the field constraints and whose computed
    fields cannot be evaluated: a height of 1e200 and one of 1e-200. *)
Definition giant : Patient.t :=
  {| Patient.id := "P100";
     Patient.name := "Zara Iqbal";
     Patient.city := "Gilgit";
     Patient.age := 30;
     Patient.gender := "other";
     Patient.height := inject_Z (10 ^ 200);
     Patient.weight := 70 # 1 |}.

Definition speck : Patient.t :=
  {| Patient.id := "P101";
     Patient.name := "Zara Iqbal";
     Patient.city := "Gilgit";
     Patient.age := 30;
     Patient.gender := "other";
     Patient.height := Qmake 1 (10 ^ 200);
     Patient.weight := 70 # 1 |}.

End ExtremeSamples.

(* ------------------------------------------------------------------ *)
(** * Facts about the Python primitives                                *)
(* ------------------------------------------------------------------ *)

Section PyFacts.

Import Py.

Lemma lt_true_iff (x y : Q) : lt x y = true <-> (x < y)%Q.
Proof.
  unfold lt. rewrite negb_true_iff, <- not_true_iff_false, Qle_bool_iff.
  split; [apply Qnot_le_lt | apply Qlt_not_le].
Qed.

Lemma lt_false_iff (x y : Q) : lt x y = false <-> (y <= x)%Q.
Proof.
  unfold lt. rewrite negb_false_iff, Qle_bool_iff. reflexivity.
Qed.

Lemma gt_true_iff (x y : Q) : gt x y = true <-> (y < x)%Q.
Proof. apply lt_true_iff. Qed.

Lemma gt_false_iff (x y : Q) : gt x y = false <-> (x <= y)%Q.
Proof. apply lt_false_iff. Qed.

Lemma str_in_iff (s : string) (l : list string) :
  str_in s l = true <-> In s l.
Proof.
  unfold str_in. rewrite existsb_exists. split.
  - intros [t [Ht E]]. apply String.eqb_eq in E. now subst.
  - intros H. exists s. split; [assumption | apply String.eqb_refl].
Qed.

Lemma str_in_false_iff (s : string) (l : list string) :
  str_in s l = false <-> ~ In s l.
Proof.
  rewrite <- str_in_iff. destruct (str_in s l); split; congruence.
Qed.

Lemma round_2_unfold (x : Q) :
  round x 2 = Qmake (round_half_even (x * (100 # 1))) 100.
Proof. reflexivity. Qed.

End PyFacts.

(* ------------------------------------------------------------------ *)
(** * The premium service: derived features                            *)
(* ------------------------------------------------------------------ *)

Section AppFacts.

Import App App.UserInput.

Lemma tiers_disjoint (c : string) :
  In c tier_1_cities -> In c tier_2_cities -> False.
Proof.
  intros H1 H2. apply str_in_iff in H2.
  unfold tier_1_cities in H1. simpl in H1.
  repeat (destruct H1 as [<- | H1]; [vm_compute in H2; discriminate |]).
  contradiction.
Qed.

Lemma city_tier_cases (u : t) :
  (In (city u) tier_1_cities /\ city_tier u = 1) \/
  (~ In (city u) tier_1_cities /\ In (city u) tier_2_cities
   /\ city_tier u = 2) \/
  (~ In (city u) tier_1_cities /\ ~ In (city u) tier_2_cities
   /\ city_tier u = 3).
Proof.
  unfold city_tier.
  destruct (Py.str_in (city u) tier_1_cities) eqn:E1.
  - left. apply str_in_iff in E1. auto.
  - apply str_in_false_iff in E1.
    destruct (Py.str_in (city u) tier_2_cities) eqn:E2.
    + right; left. apply str_in_iff in E2. auto.
    + right; right. apply str_in_false_iff in E2. auto.
Qed.

(** C9.  The tier of an applicant is 1 exactly when the city is an
    element of the tier-1 list, 2 exactly when it is an element of the
    tier-2 list, and 3 exactly when it is in neither; membership is
    equality of strings, so a different spelling or letter case of a
    listed city is tier 3.  "Lahore" is tier 1, "Multan" tier 2 and
    "Unknown City" tier 3. *)
Theorem city_tier_membership (u : t) :
  (city_tier u = 1 <-> In (city u) tier_1_cities) /\
  (city_tier u = 2 <-> In (city u) tier_2_cities) /\
  (city_tier u = 3 <->
     ~ In (city u) tier_1_cities /\ ~ In (city u) tier_2_cities) /\
  (forall a w h i s o,
     city_tier (Build_t a w h i s "Lahore" o) = 1 /\
     city_tier (Build_t a w h i s "Multan" o) = 2 /\
     city_tier (Build_t a w h i s "Unknown City" o) = 3 /\
     city_tier (Build_t a w h i s "lahore" o) = 3 /\
     city_tier (Build_t a w h i s "MULTAN" o) = 3 /\
     city_tier (Build_t a w h i s " Lahore" o) = 3).
Proof.
  pose proof (tiers_disjoint (city u)) as D.
  destruct (city_tier_cases u) as [[H1 E] | [[H1 [H2 E]] | [H1 [H2 E]]]];
    rewrite E; repeat split; intros; try lia; try tauto;
    try reflexivity.
Qed.

(** C2.  The lifestyle risk is "high" exactly for a smoker with a bmi
    above 30, "medium" exactly when the applicant smokes or has a bmi
    above 27 without being "high", and "low" exactly otherwise; a smoker
    of 90 kg and 1.7 m has a bmi between 31.14 and 31.15 and is "high". *)
Theorem lifestyle_risk_cases (u : t) :
  (lifestyle_risk u = "high"%string <->
     smoker u = true /\ (30 # 1 < bmi u)%Q) /\
  (lifestyle_risk u = "medium"%string <->
     (smoker u = true \/ (27 # 1 < bmi u)%Q) /\
     ~ (smoker u = true /\ (30 # 1 < bmi u)%Q)) /\
  (lifestyle_risk u = "low"%string <->
     ~ (smoker u = true \/ (27 # 1 < bmi u)%Q)) /\
  (forall a i c o,
     (3114 # 100 < bmi (Build_t a (90 # 1) (17 # 10) i true c o))%Q /\
     (bmi (Build_t a (90 # 1) (17 # 10) i true c o) < 3115 # 100)%Q /\
     lifestyle_risk (Build_t a (90 # 1) (17 # 10) i true c o)
       = "high"%string).
Proof.
  unfold lifestyle_risk.
  destruct (smoker u);
    destruct (Py.gt (bmi u) (30 # 1)) eqn:E30;
    destruct (Py.gt (bmi u) (27 # 1)) eqn:E27; simpl;
    try (apply gt_true_iff in E30); try (apply gt_false_iff in E30);
    try (apply gt_true_iff in E27); try (apply gt_false_iff in E27);
    (repeat split; intros;
     try discriminate; try reflexivity; try tauto; try lra;
     try (intuition (try discriminate; try lra))).
Qed.

End AppFacts.

(* ------------------------------------------------------------------ *)
(** * The patient service: computed fields                             *)
(* ------------------------------------------------------------------ *)

Section PatientFacts.

Import Py Main Main.Patient.

(** C8.  The verdict is "Underweight" exactly below 18.5, "Normal"
    exactly from 18.5 to below 25, "Overweight" exactly from 25 to below
    30 and "Obese" exactly from 30, all read off the rounded bmi: a raw
    quotient of 18.496 is rounded to 18.5 and is "Normal".  At a height
    of 1 m the weights 18.49, 18.5, 24.99, 25, 29.99 and 30 are their own
    bmi and give the six boundary verdicts. *)
Theorem verdict_thresholds (p : t) :
  (verdict p = "Underweight"%string <-> (bmi p < 185 # 10)%Q) /\
  (verdict p = "Normal"%string <->
     (185 # 10 <= bmi p)%Q /\ (bmi p < 25 # 1)%Q) /\
  (verdict p = "Overweight"%string <->
     (25 # 1 <= bmi p)%Q /\ (bmi p < 30 # 1)%Q) /\
  (verdict p = "Obese"%string <-> (30 # 1 <= bmi p)%Q) /\
  (forall i n c a g,
     let at_weight w := Build_t i n c a g (1 # 1) w in
     (bmi (at_weight (1849 # 100)) == 1849 # 100)%Q /\
     verdict (at_weight (1849 # 100)) = "Underweight"%string /\
     (bmi (at_weight (185 # 10)) == 185 # 10)%Q /\
     verdict (at_weight (185 # 10)) = "Normal"%string /\
     (bmi (at_weight (2499 # 100)) == 2499 # 100)%Q /\
     verdict (at_weight (2499 # 100)) = "Normal"%string /\
     (bmi (at_weight (25 # 1)) == 25 # 1)%Q /\
     verdict (at_weight (25 # 1)) = "Overweight"%string /\
     (bmi (at_weight (2999 # 100)) == 2999 # 100)%Q /\
     verdict (at_weight (2999 # 100)) = "Overweight"%string /\
     (bmi (at_weight (30 # 1)) == 30 # 1)%Q /\
     verdict (at_weight (30 # 1)) = "Obese"%string /\
     (weight (at_weight (18496 # 1000)) / height (at_weight (18496 # 1000)) ^ 2
        < 185 # 10)%Q /\
     verdict (at_weight (18496 # 1000)) = "Normal"%string).
Proof.
  split; [| split; [| split; [| split]]].
  5: { intros; repeat split. }
  all: unfold verdict;
    destruct (lt (bmi p) (185 # 10)) eqn:E1;
    destruct (lt (bmi p) (25 # 1)) eqn:E2;
    destruct (lt (bmi p) (30 # 1)) eqn:E3;
    try (apply lt_true_iff in E1); try (apply lt_false_iff in E1);
    try (apply lt_true_iff in E2); try (apply lt_false_iff in E2);
    try (apply lt_true_iff in E3); try (apply lt_false_iff in E3);
    split; intros; try discriminate; try reflexivity; try lra;
    try (split; lra).
Qed.

End PatientFacts.

(* ------------------------------------------------------------------ *)
(** * Dictionaries                                                     *)
(* ------------------------------------------------------------------ *)

Section DictFacts.

Import Py.

Context {V : Type}.
Implicit Types (k : string) (v : V) (d : dict V).

Lemma dict_mem_get k d :
  dict_mem k d = true <-> exists v, dict_get k d = Some v.
Proof.
  induction d as [| [k' v'] d IH]; simpl.
  - split; [discriminate | intros [v H]; discriminate].
  - destruct (String.eqb k k'); simpl.
    + split; [eauto | reflexivity].
    + exact IH.
Qed.

Lemma dict_mem_false k d :
  dict_mem k d = false <-> dict_get k d = None.
Proof.
  induction d as [| [k' v'] d IH]; simpl.
  - tauto.
  - destruct (String.eqb k k'); simpl.
    + split; discriminate.
    + exact IH.
Qed.

Lemma dict_get_set_same k v d : dict_get k (dict_set k v d) = Some v.
Proof.
  induction d as [| [k' v'] d IH]; simpl.
  - now rewrite String.eqb_refl.
  - destruct (String.eqb k k') eqn:E; simpl; rewrite E; [reflexivity | exact IH].
Qed.

Lemma dict_get_set_other k k' v d :
  k' <> k -> dict_get k' (dict_set k v d) = dict_get k' d.
Proof.
  intros N. apply String.eqb_neq in N.
  induction d as [| [k0 v0] d IH]; simpl.
  - now rewrite N.
  - destruct (String.eqb k k0) eqn:E; simpl.
    + apply String.eqb_eq in E. subst k0. now rewrite N.
    + destruct (String.eqb k' k0); [reflexivity | exact IH].
Qed.

Lemma dict_set_set k v w d : dict_set k v (dict_set k w d) = dict_set k v d.
Proof.
  induction d as [| [k' v'] d IH]; simpl.
  - now rewrite String.eqb_refl.
  - destruct (String.eqb k k') eqn:E; simpl; rewrite E; [reflexivity |].
    now rewrite IH.
Qed.

Lemma dict_set_absent k v d :
  dict_mem k d = false -> dict_set k v d = d ++ [(k, v)].
Proof.
  induction d as [| [k' v'] d IH]; simpl; [reflexivity |].
  destruct (String.eqb k k'); simpl; [discriminate |].
  intros H. now rewrite IH.
Qed.

Lemma dict_set_present_keys k v d :
  dict_mem k d = true -> map fst (dict_set k v d) = map fst d.
Proof.
  induction d as [| [k' v'] d IH]; simpl; [discriminate |].
  destruct (String.eqb k k'); simpl; [reflexivity |].
  intros H. now rewrite IH.
Qed.

Lemma dict_mem_set k k' v d :
  dict_mem k' (dict_set k v d) = String.eqb k' k || dict_mem k' d.
Proof.
  destruct (String.eqb k' k) eqn:E; simpl.
  - apply String.eqb_eq in E. subst k'. apply dict_mem_get.
    exists v. apply dict_get_set_same.
  - apply String.eqb_neq in E.
    destruct (dict_mem k' d) eqn:M.
    + apply dict_mem_get. apply dict_mem_get in M.
      now rewrite dict_get_set_other.
    + apply dict_mem_false. apply dict_mem_false in M.
      now rewrite dict_get_set_other.
Qed.

(** Looking a key up after the loop that copies [src] into [d]: the value
    from [src] when [src] has the key, the old value otherwise. *)
Lemma dict_get_update k d (src : dict V) :
  NoDup (map fst src) ->
  dict_get k (dict_update d src) =
  match dict_get k src with
  | Some v => Some v
  | None => dict_get k d
  end.
Proof.
  unfold dict_update. revert d.
  induction src as [| [k' v'] src IH]; intros d ND; simpl; [reflexivity |].
  inversion ND as [| ? ? Hnotin ND']; subst.
  rewrite IH by assumption.
  destruct (String.eqb k k') eqn:E.
  - apply String.eqb_eq in E. subst k'.
    assert (G : dict_get k src = None).
    { apply dict_mem_false. destruct (dict_mem k src) eqn:M; [| reflexivity].
      exfalso. apply Hnotin. unfold dict_mem in M.
      apply existsb_exists in M. destruct M as [[k1 v1] [Hin Heq]].
      simpl in Heq. apply String.eqb_eq in Heq. subst k1.
      apply (in_map fst) in Hin. exact Hin. }
    rewrite G. apply dict_get_set_same.
  - apply String.eqb_neq in E.
    destruct (dict_get k src); [reflexivity |].
    now apply dict_get_set_other.
Qed.

Lemma dict_get_In k v d : dict_get k d = Some v -> In (k, v) d.
Proof.
  induction d as [| [k' v'] d IH]; simpl; [discriminate |].
  destruct (String.eqb k k') eqn:E.
  - apply String.eqb_eq in E. intros [= ->]. subst. now left.
  - intros H. right. now apply IH.
Qed.

Lemma dict_set_forallb (P : string * V -> bool) k v d :
  P (k, v) = true -> forallb P d = true -> forallb P (dict_set k v d) = true.
Proof.
  intros Hk. induction d as [| [k' v'] d IH]; simpl.
  - intros _. now rewrite Hk.
  - rewrite andb_true_iff. intros [H1 H2].
    destruct (String.eqb k k') eqn:E; simpl.
    + apply String.eqb_eq in E. subst k'. now rewrite Hk, H2.
    + now rewrite H1, IH.
Qed.

Lemma dict_del_forallb (P : string * V -> bool) k d :
  forallb P d = true -> forallb P (dict_del k d) = true.
Proof.
  induction d as [| [k' v'] d IH]; simpl; [reflexivity |].
  rewrite andb_true_iff. intros [H1 H2].
  destruct (String.eqb k k'); simpl; [assumption |].
  now rewrite H1, IH.
Qed.

End DictFacts.

(* ------------------------------------------------------------------ *)
(** * Validation of a patient                                          *)
(* ------------------------------------------------------------------ *)

Section ValidationFacts.

Import Py Main Props.

Lemma required_some {A} (kwargs : record) k (conv : value -> option A)
  (check : A -> bool) (a : A) :
  required kwargs k conv check = Some a <->
  exists v, dict_get k kwargs = Some v /\ conv v = Some a /\ check a = true.
Proof.
  unfold required. split.
  - destruct (dict_get k kwargs) as [v |]; [| discriminate].
    destruct (conv v) as [a' |] eqn:C; [| discriminate].
    destruct (check a') eqn:K; [| discriminate].
    intros [= <-]. eauto.
  - intros [v [-> [-> ->]]]. reflexivity.
Qed.

Lemma age_ok_iff (n : Z) : age_ok n = true <-> 1 <= n <= 119.
Proof. unfold age_ok. rewrite andb_true_iff, !Z.ltb_lt. lia. Qed.

Lemma gender_ok_iff (g : string) : gender_ok g = true <-> In g genders.
Proof. apply str_in_iff. Qed.

Lemma positive_iff (q : Q) : positive q = true <-> (0 < q)%Q.
Proof. apply gt_true_iff. Qed.

Lemma required_has {A} (kwargs : record) k (conv : value -> option A)
  (check : A -> bool) (P : A -> Prop) :
  (forall a, check a = true <-> P a) ->
  (exists a, required kwargs k conv check = Some a) <-> has kwargs k conv P.
Proof.
  intros HP. unfold has. split.
  - intros [a H]. apply required_some in H. destruct H as [v [H1 [H2 H3]]].
    exists v, a. rewrite <- HP. auto.
  - intros [v [a [H1 [H2 H3]]]]. exists a. apply required_some.
    exists v. rewrite HP. auto.
Qed.

(** The constructor succeeds exactly on the seven successful fields. *)
Lemma init_some (kwargs : record) (p : Patient.t) :
  Patient.init kwargs = Some p <->
  required kwargs "id" as_str any = Some (Patient.id p) /\
  required kwargs "name" as_str any = Some (Patient.name p) /\
  required kwargs "city" as_str any = Some (Patient.city p) /\
  required kwargs "age" as_int age_ok = Some (Patient.age p) /\
  required kwargs "gender" as_str gender_ok = Some (Patient.gender p) /\
  required kwargs "height" as_float positive = Some (Patient.height p) /\
  required kwargs "weight" as_float positive = Some (Patient.weight p).
Proof.
  unfold Patient.init. split.
  - destruct (required kwargs "id" as_str any); [| discriminate].
    destruct (required kwargs "name" as_str any); [| discriminate].
    destruct (required kwargs "city" as_str any); [| discriminate].
    destruct (required kwargs "age" as_int age_ok); [| discriminate].
    destruct (required kwargs "gender" as_str gender_ok); [| discriminate].
    destruct (required kwargs "height" as_float positive); [| discriminate].
    destruct (required kwargs "weight" as_float positive); [| discriminate].
    intros [= <-]. simpl. repeat split; reflexivity.
  - intros [-> [-> [-> [-> [-> [-> ->]]]]]]. destruct p; reflexivity.
Qed.

Lemma init_constraints (kwargs : record) :
  (exists p, Patient.init kwargs = Some p) <-> constraints kwargs.
Proof.
  unfold constraints.
  rewrite <- (required_has kwargs "id" as_str any) by (unfold any; tauto).
  rewrite <- (required_has kwargs "name" as_str any) by (unfold any; tauto).
  rewrite <- (required_has kwargs "city" as_str any) by (unfold any; tauto).
  rewrite <- (required_has kwargs "age" as_int age_ok) by apply age_ok_iff.
  rewrite <- (required_has kwargs "gender" as_str gender_ok)
    by apply gender_ok_iff.
  rewrite <- !(required_has kwargs _ as_float positive) by apply positive_iff.
  split.
  - intros [p H]. apply init_some in H.
    destruct H as [H1 [H2 [H3 [H4 [H5 [H6 H7]]]]]]. repeat split; eauto.
  - intros [[i Hi] [[n Hn] [[c Hc] [[a Ha] [[g Hg] [[h Hh] [w Hw]]]]]]].
    exists (Patient.Build_t i n c a g h w). apply init_some. simpl.
    repeat split; assumption.
Qed.

Lemma init_none (kwargs : record) :
  Patient.init kwargs = None <-> ~ constraints kwargs.
Proof.
  rewrite <- init_constraints. destruct (Patient.init kwargs) as [p |].
  - split; [discriminate | intros H; exfalso; apply H; eauto].
  - split; [intros _ [p H]; discriminate | reflexivity].
Qed.

(** What the constructor builds satisfies the field constraints. *)
Lemma init_valid (kwargs : record) (p : Patient.t) :
  Patient.init kwargs = Some p -> Patient.valid p = true.
Proof.
  intros H. apply init_some in H.
  destruct H as [_ [_ [_ [Ha [Hg [Hh Hw]]]]]].
  apply required_some in Ha, Hg, Hh, Hw.
  destruct Ha as [? [_ [_ Ha]]]. destruct Hg as [? [_ [_ Hg]]].
  destruct Hh as [? [_ [_ Hh]]]. destruct Hw as [? [_ [_ Hw]]].
  unfold Patient.valid. now rewrite Ha, Hg, Hh, Hw.
Qed.

Lemma parse_id (patient_id : string) (r : record) (p : Patient.t) :
  parse patient_id r = Some p -> Patient.id p = patient_id.
Proof.
  unfold parse. intros H. apply init_some in H. destruct H as [H _].
  apply required_some in H. destruct H as [v [H1 [H2 _]]].
  rewrite dict_get_set_same in H1. injection H1 as <-.
  simpl in H2. now injection H2.
Qed.

(** Reading back what [model_dump] wrote gives the patient again, under
    the id of the key. *)
Lemma parse_model_dump (patient_id : string) (p : Patient.t) :
  Patient.valid p = true ->
  parse patient_id (Patient.model_dump p) =
  Some {| Patient.id := patient_id;
          Patient.name := Patient.name p;
          Patient.city := Patient.city p;
          Patient.age := Patient.age p;
          Patient.gender := Patient.gender p;
          Patient.height := Patient.height p;
          Patient.weight := Patient.weight p |}.
Proof.
  unfold Patient.valid. rewrite !andb_true_iff. intros [[[Ha Hg] Hh] Hw].
  unfold parse. apply init_some. simpl.
  repeat split; apply required_some; eexists;
    (split; [reflexivity |]);
    (split; [reflexivity | assumption || reflexivity]).
Qed.

Lemma value_eqb_refl (v : value) : value_eqb v v = true.
Proof.
  destruct v; simpl; auto using Z.eqb_refl, String.eqb_refl.
  now rewrite Z.eqb_refl, Pos.eqb_refl.
Qed.

Lemma value_eqb_eq (a b : value) : value_eqb a b = true <-> a = b.
Proof.
  split; [| intros ->; apply value_eqb_refl].
  destruct a, b; simpl; try discriminate; try reflexivity.
  - intros H. apply Z.eqb_eq in H. now subst.
  - rewrite andb_true_iff, Z.eqb_eq, Pos.eqb_eq. intros [H1 H2].
    destruct q, q0; simpl in *. now subst.
  - intros H. apply String.eqb_eq in H. now subst.
Qed.

(** A record written by [model_dump] has fresh derived fields. *)
Lemma model_dump_fresh (patient_id : string) (p : Patient.t) :
  Patient.valid p = true ->
  derived_fresh patient_id (Patient.model_dump p) = true.
Proof.
  intros H. unfold derived_fresh. rewrite parse_model_dump by assumption.
  change (value_eqb (VFloat (Patient.bmi p)) (VFloat (Patient.bmi p))
          && value_eqb (VStr (Patient.verdict p)) (VStr (Patient.verdict p))
          = true).
  now rewrite !value_eqb_refl.
Qed.

End ValidationFacts.

(* ------------------------------------------------------------------ *)
(** * The update payload and the merge                                 *)
(* ------------------------------------------------------------------ *)

Section MergeFacts.

Import Py Main Props.

Lemma dict_get_app {V} k (a b : dict V) :
  dict_get k (a ++ b) =
  match dict_get k a with
  | Some v => Some v
  | None => dict_get k b
  end.
Proof.
  induction a as [| [k' v'] a IH]; simpl; [reflexivity |].
  destruct (String.eqb k k'); [reflexivity | exact IH].
Qed.

Lemma dump_field_other {A} k k' (inj : A -> value) (f : PatientUpdate.field A) :
  k <> k' -> dict_get k (PatientUpdate.dump_field k' inj f) = None.
Proof.
  intros N. apply String.eqb_neq in N.
  destruct f as [| [a |]]; simpl; try rewrite N; reflexivity.
Qed.

Ltac skip_fields :=
  unfold PatientUpdate.model_dump; rewrite !dict_get_app;
  repeat match goal with
         | |- context [dict_get ?k (PatientUpdate.dump_field ?k' ?inj ?f)] =>
             rewrite (dump_field_other k k' inj f) by discriminate
         end.

Lemma model_dump_name u :
  dict_get "name" (PatientUpdate.model_dump u)
  = dict_get "name" (PatientUpdate.dump_field "name" VStr (PatientUpdate.name u)).
Proof.
  skip_fields. now destruct (dict_get _ _).
Qed.

Lemma model_dump_city u :
  dict_get "city" (PatientUpdate.model_dump u)
  = dict_get "city" (PatientUpdate.dump_field "city" VStr (PatientUpdate.city u)).
Proof.
  skip_fields. now destruct (dict_get _ _).
Qed.

Lemma model_dump_age u :
  dict_get "age" (PatientUpdate.model_dump u)
  = dict_get "age" (PatientUpdate.dump_field "age" VInt (PatientUpdate.age u)).
Proof.
  skip_fields. now destruct (dict_get _ _).
Qed.

Lemma model_dump_gender u :
  dict_get "gender" (PatientUpdate.model_dump u)
  = dict_get "gender"
      (PatientUpdate.dump_field "gender" VStr (PatientUpdate.gender u)).
Proof.
  skip_fields. now destruct (dict_get _ _).
Qed.

Lemma model_dump_height u :
  dict_get "height" (PatientUpdate.model_dump u)
  = dict_get "height"
      (PatientUpdate.dump_field "height" VFloat (PatientUpdate.height u)).
Proof.
  skip_fields. now destruct (dict_get _ _).
Qed.

Lemma model_dump_weight u :
  dict_get "weight" (PatientUpdate.model_dump u)
  = dict_get "weight"
      (PatientUpdate.dump_field "weight" VFloat (PatientUpdate.weight u)).
Proof.
  skip_fields. reflexivity.
Qed.

(** A key that is not one of the six input fields is never sent. *)
Lemma model_dump_other u k :
  ~ In k input_fields -> dict_get k (PatientUpdate.model_dump u) = None.
Proof.
  intros N. unfold PatientUpdate.model_dump. rewrite !dict_get_app.
  rewrite !dump_field_other; [reflexivity | ..];
    intros ->; apply N; simpl; tauto.
Qed.

Lemma dump_field_keys {A} k (inj : A -> value) (f : PatientUpdate.field A) :
  map fst (PatientUpdate.dump_field k inj f)
  = match f with PatientUpdate.Unset => [] | _ => [k] end.
Proof. now destruct f as [| [a |]]. Qed.

Lemma model_dump_NoDup u : NoDup (map fst (PatientUpdate.model_dump u)).
Proof.
  unfold PatientUpdate.model_dump. rewrite !map_app, !dump_field_keys.
  destruct (PatientUpdate.name u), (PatientUpdate.city u),
    (PatientUpdate.age u), (PatientUpdate.gender u),
    (PatientUpdate.height u), (PatientUpdate.weight u); simpl;
    repeat constructor; simpl; intuition discriminate.
Qed.

(** A key of the merged record other than the id: the payload's value if
    the payload has the key, the stored value otherwise. *)
Lemma merged_get pid u (r : record) k :
  k <> "id"%string ->
  dict_get k (merged pid u r) =
  match dict_get k (PatientUpdate.model_dump u) with
  | Some v => Some v
  | None => dict_get k r
  end.
Proof.
  intros N. unfold merged. rewrite dict_get_set_other by assumption.
  apply dict_get_update, model_dump_NoDup.
Qed.

Lemma merged_get_id pid u (r : record) :
  dict_get "id" (merged pid u r) = Some (VStr pid).
Proof. apply dict_get_set_same. Qed.

Lemma required_ext {A} (kw1 kw2 : record) k (conv : value -> option A) check :
  dict_get k kw1 = dict_get k kw2 ->
  required kw1 k conv check = required kw2 k conv check.
Proof. unfold required. now intros ->. Qed.

(** One field of the merged record, validated: the value that was sent,
    or else the validated stored value. *)
Lemma merged_required {A} pid u (r : record) k (inj : A -> value)
  (conv : value -> option A) (check : A -> bool)
  (f : PatientUpdate.field A) (old : A) :
  k <> "id"%string ->
  dict_get k (PatientUpdate.model_dump u)
    = dict_get k (PatientUpdate.dump_field k inj f) ->
  (forall a, conv (inj a) = Some a) ->
  is_null f = false ->
  PatientUpdate.field_ok check f = true ->
  required (dict_set "id" (VStr pid) r) k conv check = Some old ->
  required (merged pid u r) k conv check = Some (pick f old).
Proof.
  intros N D C Hnull Hok Hold.
  assert (G : dict_get k (merged pid u r) =
              match dict_get k (PatientUpdate.dump_field k inj f) with
              | Some v => Some v
              | None => dict_get k (dict_set "id" (VStr pid) r)
              end).
  { rewrite merged_get, D by assumption.
    now rewrite dict_get_set_other by assumption. }
  destruct f as [| [a |]]; simpl in *.
  - rewrite <- Hold. now apply required_ext.
  - rewrite String.eqb_refl in G. unfold required. rewrite G, C, Hok.
    reflexivity.
  - discriminate.
Qed.

(** A field sent as [null] fails the validation of the merged record. *)
Lemma merged_null {A} pid u (r : record) k (inj : A -> value)
  (conv : value -> option A) (check : A -> bool)
  (f : PatientUpdate.field A) :
  k <> "id"%string ->
  dict_get k (PatientUpdate.model_dump u)
    = dict_get k (PatientUpdate.dump_field k inj f) ->
  conv VNone = None ->
  is_null f = true ->
  required (merged pid u r) k conv check = None.
Proof.
  intros N D C Hnull. destruct f as [| [a |]]; try discriminate.
  unfold required. rewrite merged_get, D by assumption. simpl.
  now rewrite String.eqb_refl, C.
Qed.

Lemma init_merged_null pid u (r : record) :
  has_null u = true -> Patient.init (merged pid u r) = None.
Proof.
  unfold has_null. rewrite !orb_true_iff. intros H.
  destruct (Patient.init (merged pid u r)) as [p |] eqn:E; [| reflexivity].
  exfalso. apply init_some in E.
  destruct E as [_ [En [Ec [Ea [Eg [Eh Ew]]]]]].
  destruct H as [[[[[H | H] | H] | H] | H] | H].
  - rewrite (merged_null pid u r "name" VStr as_str any (PatientUpdate.name u)) in En;
      [discriminate | discriminate | apply model_dump_name | easy | easy].
  - rewrite (merged_null pid u r "city" VStr as_str any (PatientUpdate.city u)) in Ec;
      [discriminate | discriminate | apply model_dump_city | easy | easy].
  - rewrite (merged_null pid u r "age" VInt as_int age_ok (PatientUpdate.age u)) in Ea;
      [discriminate | discriminate | apply model_dump_age | easy | easy].
  - rewrite (merged_null pid u r "gender" VStr as_str gender_ok (PatientUpdate.gender u)) in Eg;
      [discriminate | discriminate | apply model_dump_gender | easy | easy].
  - rewrite (merged_null pid u r "height" VFloat as_float positive (PatientUpdate.height u)) in Eh;
      [discriminate | discriminate | apply model_dump_height | easy | easy].
  - rewrite (merged_null pid u r "weight" VFloat as_float positive (PatientUpdate.weight u)) in Ew;
      [discriminate | discriminate | apply model_dump_weight | easy | easy].
Qed.

(** On a valid stored patient, a valid payload without [null] passes the
    validation, and the patient built is the partial update of the old
    one. *)
Lemma init_merged pid u (r : record) (p0 : Patient.t) :
  parse pid r = Some p0 ->
  PatientUpdate.valid u = true ->
  has_null u = false ->
  Patient.init (merged pid u r) = Some (merge_spec u p0).
Proof.
  intros Hp Hv Hn. pose proof (parse_id _ _ _ Hp) as Hid.
  unfold parse in Hp. apply init_some in Hp.
  destruct Hp as [Ei [En [Ec [Ea [Eg [Eh Ew]]]]]].
  unfold PatientUpdate.valid in Hv. rewrite !andb_true_iff in Hv.
  destruct Hv as [[[Va Vg] Vh] Vw].
  unfold has_null in Hn. rewrite !orb_false_iff in Hn.
  destruct Hn as [[[[[Nn Nc] Na] Ng] Nh] Nw].
  apply init_some. unfold merge_spec. simpl.
  split; [| split; [| split; [| split; [| split; [| split]]]]].
  - unfold required. rewrite merged_get_id. simpl. now rewrite Hid.
  - apply (merged_required pid u r "name" VStr); auto using model_dump_name.
    + discriminate.
    + now destruct (PatientUpdate.name u) as [| [a |]].
  - apply (merged_required pid u r "city" VStr); auto using model_dump_city.
    + discriminate.
    + now destruct (PatientUpdate.city u) as [| [a |]].
  - apply (merged_required pid u r "age" VInt); auto using model_dump_age.
    discriminate.
  - apply (merged_required pid u r "gender" VStr);
      auto using model_dump_gender.
    discriminate.
  - apply (merged_required pid u r "height" VFloat);
      auto using model_dump_height.
    discriminate.
  - apply (merged_required pid u r "weight" VFloat);
      auto using model_dump_weight.
    discriminate.
Qed.

End MergeFacts.

(* ------------------------------------------------------------------ *)
(** * The handlers                                                     *)
(* ------------------------------------------------------------------ *)

Section HandlerFacts.

Import Py Main Props.

(** The three ways the update handler ends. *)
Lemma update_patient_run pid u (file : store) :
  update_patient pid u file =
  match dict_get pid file with
  | None => (Raise (HTTPException 404 "Patient data not found"), file)
  | Some r =>
      match Patient.init (merged pid u r) with
      | None => (Raise ValidationError, file)
      | Some p =>
          (Ok (Response 200 "Patient Data Updated"),
           dict_set pid (Patient.model_dump p) file)
      end
  end.
Proof.
  unfold update_patient, bind, load_data, raise, save_data, ret.
  destruct (dict_mem pid file) eqn:M; simpl.
  - apply dict_mem_get in M. destruct M as [r ->].
    fold (merged pid u r).
    destruct (Patient.init (merged pid u r)); [| reflexivity].
    now rewrite dict_set_set.
  - apply dict_mem_false in M. now rewrite M.
Qed.

Lemma create_patient_run (p : Patient.t) (file : store) :
  create_patient p file =
  if dict_mem (Patient.id p) file then
    (Raise (HTTPException 400 "Patient already exists"), file)
  else
    (Ok (Response 201 "Patient Data Created Successful"),
     dict_set (Patient.id p) (Patient.model_dump p) file).
Proof.
  unfold create_patient, bind, load_data, raise, save_data, ret.
  now destruct (dict_mem (Patient.id p) file).
Qed.

Lemma delete_patient_run pid (file : store) :
  delete_patient pid file =
  if dict_mem pid file then
    (Ok (Response 200 "patient deleted"), dict_del pid file)
  else (Raise (HTTPException 404 "Patient Data not found"), file).
Proof.
  unfold delete_patient, bind, load_data, raise, save_data, ret.
  now destruct (dict_mem pid file).
Qed.


(** The heights 1e200 and 1e-200 pass the field constraints, and the
    computed fields of such patients cannot be evaluated. *)
Lemma extreme_heights_raise :
  Patient.valid ExtremeSamples.giant = true /\
  Computed.raises ExtremeSamples.giant = Some Computed.OverflowError /\
  Patient.valid ExtremeSamples.speck = true /\
  Computed.raises ExtremeSamples.speck = Some Computed.ZeroDivisionError /\
  Computed.raises Samples.patient = None.
Proof. repeat split; vm_compute; reflexivity. Qed.




End HandlerFacts.

Section UpdateFacts.

Import Py Main Props.

Lemma has_null_sent (u : PatientUpdate.t) :
  has_null u = true ->
  exists k, In k input_fields /\
            dict_get k (PatientUpdate.model_dump u) = Some VNone.
Proof.
  unfold has_null. rewrite !orb_true_iff.
  intros [[[[[H | H] | H] | H] | H] | H].
  - exists "name"%string. split; [simpl; tauto |]. rewrite model_dump_name.
    now destruct (PatientUpdate.name u) as [| [a |]].
  - exists "city"%string. split; [simpl; tauto |]. rewrite model_dump_city.
    now destruct (PatientUpdate.city u) as [| [a |]].
  - exists "age"%string. split; [simpl; tauto |]. rewrite model_dump_age.
    now destruct (PatientUpdate.age u) as [| [a |]].
  - exists "gender"%string. split; [simpl; tauto |]. rewrite model_dump_gender.
    now destruct (PatientUpdate.gender u) as [| [a |]].
  - exists "height"%string. split; [simpl; tauto |]. rewrite model_dump_height.
    now destruct (PatientUpdate.height u) as [| [a |]].
  - exists "weight"%string. split; [simpl; tauto |]. rewrite model_dump_weight.
    now destruct (PatientUpdate.weight u) as [| [a |]].
Qed.

Lemma input_field_not_id k : In k input_fields -> k <> "id"%string.
Proof.
  simpl. intros H E. subst k. intuition discriminate.
Qed.

Lemma model_dump_no_null (p : Patient.t) k :
  In k stored_fields ->
  exists v, dict_get k (Patient.model_dump p) = Some v /\ v <> VNone.
Proof.
  simpl. intros H.
  repeat (destruct H as [<- | H];
          [eexists; split; [reflexivity | discriminate] |]).
  contradiction.
Qed.

(** C10.  For an id that is a key of the document: a payload that sends
    [null] for a field carries that [null] in its dump, the [null] is
    written over the stored value in the merged record, the validation of
    the merged record fails and the document stays as it was.  Whenever
    an update succeeds, each of the eight fields of the record it stores
    has a value other than [null]. *)
Theorem null_is_merged_and_rejected pid (u : PatientUpdate.t) (file : store) :
  dict_mem pid file = true ->
  (has_null u = true ->
     (exists k, In k input_fields /\
        dict_get k (PatientUpdate.model_dump u) = Some VNone /\
        forall r, dict_get k (merged pid u r) = Some VNone) /\
     update_patient pid u file = (Raise ValidationError, file)) /\
  (forall resp file' r' k,
     update_patient pid u file = (Ok resp, file') ->
     dict_get pid file' = Some r' ->
     In k stored_fields ->
     exists v, dict_get k r' = Some v /\ v <> VNone).
Proof.
  intros M. apply dict_mem_get in M. destruct M as [r G].
  rewrite update_patient_run, G. split.
  - intros N. split.
    + destruct (has_null_sent u N) as [k [Hk Hd]].
      exists k. repeat split; try assumption.
      intros r0. rewrite merged_get by now apply input_field_not_id.
      now rewrite Hd.
    + now rewrite init_merged_null.
  - intros resp file' r' k.
    destruct (Patient.init (merged pid u r)) as [p |]; [| discriminate].
    intros [= <- <-]. rewrite dict_get_set_same. intros [= <-].
    apply model_dump_no_null.
Qed.

Lemma null_is_merged_and_rejected_witness :
  dict_mem "P001" Samples.one_patient = true /\
  has_null Samples.null_city = true /\
  update_patient "P001" Samples.null_city Samples.one_patient
  = (Raise ValidationError, Samples.one_patient).
Proof.
  split; [reflexivity |]. split; [reflexivity |].
  destruct (null_is_merged_and_rejected "P001" Samples.null_city
              Samples.one_patient eq_refl) as [H _].
  exact (proj2 (H eq_refl)).
Defined.

(** A record that is the dump of a patient reads back as that patient. *)
Lemma parse_dump_fields pid (q p0 : Patient.t) :
  parse pid (Patient.model_dump q) = Some p0 ->
  Patient.name p0 = Patient.name q /\ Patient.city p0 = Patient.city q /\
  Patient.age p0 = Patient.age q /\ Patient.gender p0 = Patient.gender q /\
  Patient.height p0 = Patient.height q /\ Patient.weight p0 = Patient.weight q.
Proof.
  unfold parse. intros H. apply init_some in H.
  destruct H as [_ [En [Ec [Ea [Eg [Eh Ew]]]]]].
  apply required_some in En, Ec, Ea, Eg, Eh, Ew.
  destruct En as [? [[= <-] [[= <-] _]]].
  destruct Ec as [? [[= <-] [[= <-] _]]].
  destruct Ea as [? [[= <-] [[= <-] _]]].
  destruct Eg as [? [[= <-] [[= <-] _]]].
  destruct Eh as [? [[= <-] [[= <-] _]]].
  destruct Ew as [? [[= <-] [[= <-] _]]].
  repeat split.
Qed.

Lemma pick_unset {A} k (inj : A -> value) (f : PatientUpdate.field A) (old : A) :
  dict_get k (PatientUpdate.dump_field k inj f) = None -> pick f old = old.
Proof.
  destruct f as [| [a |]]; simpl; try rewrite String.eqb_refl;
    [reflexivity | discriminate | reflexivity].
Qed.




End UpdateFacts.

(* ------------------------------------------------------------------ *)
(** * Sorting                                                          *)
(* ------------------------------------------------------------------ *)

Section SortFacts.

Import Py Main Props.

Context {A : Type} (key : A -> value).

Lemma ltb_inject (m n : Z) : (m <? n) = lt (inject_Z m) (inject_Z n).
Proof.
  destruct (lt (inject_Z m) (inject_Z n)) eqn:E.
  - apply lt_true_iff in E. rewrite <- Zlt_Qlt in E. now apply Z.ltb_lt.
  - apply lt_false_iff in E. rewrite <- Zle_Qle in E. now apply Z.ltb_ge.
Qed.

(** On two numbers [<] is the order of their values. *)
Lemma value_lt_number (a b : value) (p q : Q) :
  as_number a = Some p -> as_number b = Some q ->
  value_lt a b = Some (lt p q).
Proof.
  destruct a, b; simpl; try discriminate; intros [= <-] [= <-];
    try reflexivity.
  now rewrite ltb_inject.
Qed.

Lemma numeric_cons (x : A) (l : list A) :
  numeric key (x :: l) = true <->
  (exists q, as_number (key x) = Some q) /\ numeric key l = true.
Proof.
  unfold numeric. simpl. rewrite andb_true_iff.
  destruct (as_number (key x)) as [q |].
  - split; intros [_ H]; split; eauto.
  - split; [intros [H _]; discriminate | intros [[q H] _]; discriminate].
Qed.

Lemma key_lt (x y : A) :
  numeric key [x; y] = true ->
  value_lt (key y) (key x) = Some (lt (number_of key y) (number_of key x)).
Proof.
  intros H. apply numeric_cons in H. destruct H as [[p Hp] H].
  apply numeric_cons in H. destruct H as [[q Hq] _].
  unfold number_of. rewrite Hp, Hq. now apply value_lt_number.
Qed.

Lemma numeric_perm (l l' : list A) :
  Permutation l l' -> numeric key l = true -> numeric key l' = true.
Proof.
  unfold numeric. rewrite !forallb_forall. intros P H a Ha.
  apply H. eapply Permutation_in; [symmetry; exact P | exact Ha].
Qed.

Lemma with_number_cons q (x : A) (l : list A) :
  with_number key q (x :: l) =
  if Qeq_bool (number_of key x) q then x :: with_number key q l
  else with_number key q l.
Proof. reflexivity. Qed.

(** Inserting among numeric keys succeeds; it permutes, keeps an
    ascending list ascending, and never moves an element past one with an
    equal key. *)
Lemma insert_numeric (x : A) (l : list A) :
  numeric key (x :: l) = true ->
  exists r, insert key x l = Some r /\
    Permutation r (x :: l) /\
    (ascending key l -> ascending key r) /\
    (forall q, with_number key q r = with_number key q (x :: l)).
Proof.
  induction l as [| y l IH]; intros N.
  - exists [x]. simpl. repeat split; auto. intros _.
    repeat constructor.
  - pose proof N as N'. apply numeric_cons in N'. destruct N' as [Hx N'].
    pose proof N' as N''. apply numeric_cons in N''. destruct N'' as [Hy Nl].
    assert (Nxy : numeric key [x; y] = true).
    { apply numeric_cons. split; [assumption |].
      apply numeric_cons. split; [assumption | reflexivity]. }
    assert (Nxl : numeric key (x :: l) = true)
      by (apply numeric_cons; split; assumption).
    simpl. rewrite (key_lt x y Nxy).
    destruct (lt (number_of key y) (number_of key x)) eqn:E.
    + apply lt_true_iff in E.
      destruct (IH Nxl) as [r [-> [P [S F]]]].
      exists (y :: r). split; [reflexivity |]. split; [| split].
      * rewrite P. apply perm_swap.
      * intros Sy. inversion Sy as [| ? ? Sl Fy]; subst.
        constructor; [now apply S |].
        eapply Permutation_Forall; [symmetry; exact P |].
        constructor; [lra | assumption].
      * intros q. rewrite !with_number_cons, F, with_number_cons.
        destruct (Qeq_bool (number_of key y) q) eqn:Ey;
          destruct (Qeq_bool (number_of key x) q) eqn:Ex; try reflexivity.
        apply Qeq_bool_iff in Ey, Ex. lra.
    + apply lt_false_iff in E.
      exists (x :: y :: l). repeat split; auto.
      intros Sy. constructor; [assumption |].
      inversion Sy as [| ? ? Sl Fy]; subst.
      constructor; [assumption |].
      eapply Forall_impl; [| exact Fy]. simpl. intros a Ha. lra.
Qed.

Lemma sort_numeric (l : list A) :
  numeric key l = true ->
  exists r, sort key l = Some r /\
    Permutation r l /\ ascending key r /\
    (forall q, with_number key q r = with_number key q l).
Proof.
  induction l as [| x l IH]; intros N.
  - exists []. repeat split; auto. constructor.
  - pose proof N as N'. apply numeric_cons in N'. destruct N' as [Hx Nl].
    destruct (IH Nl) as [s [Hs [P [S F]]]].
    assert (Nxs : numeric key (x :: s) = true).
    { apply numeric_cons. split; [assumption |].
      eapply numeric_perm; [symmetry; exact P | exact Nl]. }
    destruct (insert_numeric x s Nxs) as [r [Hr [P' [S' F']]]].
    exists r. simpl. rewrite Hs. split; [assumption |].
    split; [| split].
    + rewrite P'. now constructor.
    + now apply S'.
    + intros q. rewrite F', !with_number_cons, F. reflexivity.
Qed.

Lemma descending_rev (l : list A) : ascending key l -> descending key (rev l).
Proof.
  unfold ascending, descending.
  induction 1 as [| a l S IH F]; simpl; [constructor |].
  apply Forall_rev in F. revert IH F.
  generalize (rev l). intros m. induction 1 as [| b m Sm IHm Fm]; simpl.
  - intros _. repeat constructor.
  - intros F. inversion F as [| ? ? Hb Fr]; subst.
    constructor; [now apply IHm |].
    apply Forall_app. split; [assumption |]. now constructor.
Qed.

(** [sorted] among numeric keys: success, a permutation, the requested
    order, and equal keys in their original order. *)
Lemma sorted_numeric (l : list A) (reverse : bool) :
  numeric key l = true ->
  exists r, sorted l key reverse = Some r /\
    Permutation r l /\
    (if reverse then descending key r else ascending key r) /\
    (forall q, with_number key q r = with_number key q l).
Proof.
  intros N. unfold sorted. destruct reverse.
  - assert (Nr : numeric key (rev l) = true)
      by (eapply numeric_perm; [apply Permutation_rev | exact N]).
    destruct (sort_numeric (rev l) Nr) as [r [-> [P [S F]]]].
    exists (rev r). simpl. split; [reflexivity |]. split; [| split].
    + rewrite <- (Permutation_rev r), P. symmetry. apply Permutation_rev.
    + now apply descending_rev.
    + intros q. unfold with_number in *.
      rewrite filter_rev, F, filter_rev. apply rev_involutive.
  - apply sort_numeric, N.
Qed.

End SortFacts.

Section SortHandlerFacts.

Import Py Main Props.

Lemma insert_perm {A} (key : A -> value) (x : A) (l r : list A) :
  insert key x l = Some r -> Permutation r (x :: l).
Proof.
  revert r. induction l as [| y l IH]; simpl; intros r.
  - intros [= <-]. reflexivity.
  - destruct (value_lt (key y) (key x)) as [[|] |]; [| | discriminate].
    + destruct (insert key x l) as [r' |]; [| discriminate].
      intros [= <-]. rewrite (IH r' eq_refl). apply perm_swap.
    + intros [= <-]. reflexivity.
Qed.

Lemma sort_perm {A} (key : A -> value) (l r : list A) :
  sort key l = Some r -> Permutation r l.
Proof.
  revert r. induction l as [| x l IH]; simpl; intros r.
  - intros [= <-]. reflexivity.
  - destruct (sort key l) as [s |]; [| discriminate].
    intros H. apply insert_perm in H. rewrite H. constructor. now apply IH.
Qed.

Lemma sorted_perm {A} (key : A -> value) (l r : list A) (reverse : bool) :
  sorted l key reverse = Some r -> Permutation r l.
Proof.
  unfold sorted. destruct reverse.
  - destruct (sort key (rev l)) as [s |] eqn:E; [| discriminate].
    intros [= <-]. apply sort_perm in E.
    rewrite <- (Permutation_rev s), E. symmetry. apply Permutation_rev.
  - apply sort_perm.
Qed.

(** What the sort handler returns, whatever the keys are. *)
Lemma sort_patient_out sort_by order (file : store) (out : list record) :
  fst (sort_patient sort_by order file) = Ok out ->
  Permutation out (dict_values file) /\
  snd (sort_patient sort_by order file) = file.
Proof.
  unfold sort_patient, bind, load_data, raise, ret.
  destruct (negb (str_in sort_by _)); [discriminate |].
  destruct (negb (str_in _ _)); [discriminate |].
  destruct (sorted _ _ _) as [r |] eqn:E; [| discriminate].
  simpl. intros [= <-]. split; [| reflexivity].
  now apply sorted_perm in E.
Qed.

(** C6.  For a field among height, weight and bmi, an order that is
    left out, "asc" or "desc", and a document whose records hold a number
    in that field or lack it: the handler returns the records of the
    document, each once and unchanged, and leaves the document alone;
    they are in non-increasing order of the stored value for "desc" and
    in non-decreasing order otherwise, a left-out order being "asc";
    records with equal values keep the order they have in the document;
    a record without the field is sorted with key 0. *)
Theorem sort_patient_ordered_stable sort_by order (file : store) :
  In sort_by ["height"; "weight"; "bmi"]%string ->
  In order [None; Some "asc"; Some "desc"]%string ->
  numeric_keys sort_by (dict_values file) = true ->
  exists out,
    sort_patient sort_by order file = (Ok out, file) /\
    Permutation out (dict_values file) /\
    (order = Some "desc"%string -> descending (sort_key sort_by) out) /\
    (order <> Some "desc"%string -> ascending (sort_key sort_by) out) /\
    (forall q, with_key sort_by q out = with_key sort_by q (dict_values file)) /\
    (forall r, dict_get sort_by r = None ->
       sort_key sort_by r = VInt 0 /\ key_number sort_by r = 0%Q) /\
    sort_patient sort_by None file = sort_patient sort_by (Some "asc"%string) file.
Proof.
  intros Hf Ho N. apply str_in_iff in Hf.
  assert (Hkey : forall r, dict_get sort_by r = None ->
            sort_key sort_by r = VInt 0 /\ key_number sort_by r = 0%Q).
  { intros r H. unfold key_number, number_of, sort_key, dict_get_default.
    now rewrite H. }
  assert (Hrun : forall o, In o [None; Some "asc"; Some "desc"]%string ->
            sort_patient sort_by o file =
            match sorted (dict_values file) (sort_key sort_by)
                    (match o with
                     | Some s => String.eqb s "desc"
                     | None => false
                     end) with
            | Some out => (Ok out, file)
            | None => (Raise TypeError, file)
            end).
  { intros o Hin. unfold sort_patient, bind, load_data, raise, ret.
    rewrite Hf. unfold sort_key, sorted. simpl in Hin.
    destruct Hin as [<- | [<- | [<- | []]]]; simpl;
      match goal with
      | |- context [sort ?k ?l] => destruct (sort k l)
      end; reflexivity. }
  rewrite !Hrun by (simpl; tauto). clear Hrun.
  simpl in Ho. destruct Ho as [<- | [<- | [<- | []]]].
  - destruct (sorted_numeric (sort_key sort_by) (dict_values file) false N)
      as [out [E [P [S F]]]].
    exists out. change (String.eqb "asc" "desc") with false. rewrite E.
    split; [reflexivity |]. split; [exact P |].
    split; [discriminate |]. split; [intros _; exact S |].
    split; [exact F |]. split; [exact Hkey | reflexivity].
  - destruct (sorted_numeric (sort_key sort_by) (dict_values file) false N)
      as [out [E [P [S F]]]].
    exists out. change (String.eqb "asc" "desc") with false. rewrite E.
    split; [reflexivity |]. split; [exact P |].
    split; [discriminate |]. split; [intros _; exact S |].
    split; [exact F |]. split; [exact Hkey | reflexivity].
  - destruct (sorted_numeric (sort_key sort_by) (dict_values file) true N)
      as [out [E [P [S F]]]].
    exists out. change (String.eqb "desc" "desc") with true. rewrite E.
    split; [reflexivity |]. split; [exact P |].
    split; [intros _; exact S |].
    split; [intros H; now contradiction H |].
    split; [exact F |]. split; [exact Hkey | reflexivity].
Qed.

Lemma sort_patient_ordered_stable_witness :
  In "weight"%string ["height"; "weight"; "bmi"]%string /\
  In (Some "desc"%string) [None; Some "asc"; Some "desc"]%string /\
  numeric_keys "weight" (dict_values Samples.four) = true /\
  sort_patient "weight" (Some "desc"%string) Samples.four
  = (Ok [Samples.heavy_int; Samples.heavy_float; Samples.light;
         Samples.no_weight], Samples.four) /\
  exists out,
    sort_patient "weight" (Some "desc"%string) Samples.four
    = (Ok out, Samples.four) /\
    descending (sort_key "weight") out.
Proof.
  split; [simpl; tauto |]. split; [simpl; tauto |].
  split; [reflexivity |]. split; [reflexivity |].
  destruct (sort_patient_ordered_stable "weight" (Some "desc"%string)
              Samples.four)
    as [out [E [_ [D _]]]];
    [simpl; tauto | simpl; tauto | reflexivity |].
  exists out. split; [exact E | exact (D eq_refl)].
Defined.

End SortHandlerFacts.

(* ------------------------------------------------------------------ *)
(** * Stored derived fields                                            *)
(* ------------------------------------------------------------------ *)

Section DerivedFacts.

Import Py Main Props.

Lemma view_patient_run pid (file : store) :
  view_patient pid file =
  match dict_get pid file with
  | Some r => (Ok r, file)
  | None => (Raise (HTTPException 404 "patient data not found"), file)
  end.
Proof.
  unfold view_patient, bind, load_data, raise, ret.
  now destruct (dict_get pid file).
Qed.

Lemma derived_fresh_iff pid (r : record) :
  derived_fresh pid r = true <->
  exists p, parse pid r = Some p /\
    dict_get "bmi" r = Some (VFloat (Patient.bmi p)) /\
    dict_get "verdict" r = Some (VStr (Patient.verdict p)).
Proof.
  unfold derived_fresh. split.
  - destruct (parse pid r) as [p |]; [| discriminate].
    destruct (dict_get "bmi" r) as [b |]; [| discriminate].
    destruct (dict_get "verdict" r) as [v |]; [| discriminate].
    rewrite andb_true_iff, !value_eqb_eq. intros [-> ->]. eauto.
  - intros [p [-> [-> ->]]]. now rewrite !value_eqb_refl.
Qed.

Lemma store_fresh_entry (file : store) pid (r : record) :
  store_fresh file = true -> In (pid, r) file -> derived_fresh pid r = true.
Proof.
  unfold store_fresh. rewrite forallb_forall. intros H Hin.
  exact (H (pid, r) Hin).
Qed.

(** The counterexample to C1 as stated.  The document [Samples.stale]
    holds one well-formed patient of 80 kg and 2 m together with a bmi of
    33.06 and the verdict "Obese".  Reading it, listing the document and
    sorting all return the record with these two values, while a fresh
    computation from its height and weight gives 20 and "Normal". *)
Lemma stale_derived_fields_are_served :
  fst (view_patient "P007" Samples.stale) = Ok Samples.stale_record /\
  fst (view Samples.stale) = Ok Samples.stale /\
  fst (sort_patient "bmi" None Samples.stale) = Ok [Samples.stale_record] /\
  dict_get "bmi" Samples.stale_record = Some (VFloat (Qmake 3306 100)) /\
  dict_get "verdict" Samples.stale_record = Some (VStr "Obese") /\
  (exists p, parse "P007" Samples.stale_record = Some p /\
     Patient.height p = Qmake 2 1 /\ Patient.weight p = Qmake 80 1 /\
     Patient.bmi p = Qmake 2000 100 /\
     Patient.verdict p = "Normal"%string) /\
  derived_fresh "P007" Samples.stale_record = false.
Proof.
  repeat split. eexists. repeat split.
Qed.

(** C1, amended.  The handlers that read (one patient, the whole
    document, the sorted list) return what is stored, bmi and verdict
    included, and compute nothing.  In a document where every record
    carries the bmi and verdict of its own height and weight, that is what
    a read returns: bmi = round(weight/height^2, 2) and the verdict of
    that bmi.  Creating a valid patient, updating and deleting lead from
    such a document to such a document again. *)
Theorem derived_fields_stored_then_served (file : store) :
  store_fresh file = true ->
  view file = (Ok file, file) /\
  (forall pid r,
     fst (view_patient pid file) = Ok r ->
     dict_get pid file = Some r /\
     exists p, parse pid r = Some p /\
       dict_get "bmi" r
       = Some (VFloat (round (Patient.weight p / Patient.height p ^ 2) 2)) /\
       dict_get "verdict" r = Some (VStr (Patient.verdict p))) /\
  (forall sort_by order out r,
     fst (sort_patient sort_by order file) = Ok out ->
     In r out ->
     exists pid, In (pid, r) file /\ derived_fresh pid r = true) /\
  (forall p, Patient.valid p = true ->
     store_fresh (snd (create_patient p file)) = true) /\
  (forall pid u, store_fresh (snd (update_patient pid u file)) = true) /\
  (forall pid, store_fresh (snd (delete_patient pid file)) = true).
Proof.
  intros H. split; [reflexivity |].
  split; [| split; [| split; [| split]]].
  - intros pid r. rewrite view_patient_run.
    destruct (dict_get pid file) as [r' |] eqn:G; [| discriminate].
    simpl. intros [= ->]. split; [reflexivity |].
    apply derived_fresh_iff.
    apply (store_fresh_entry file); [assumption | now apply dict_get_In].
  - intros sort_by order out r E Hin.
    apply sort_patient_out in E. destruct E as [P _].
    apply (Permutation_in _ P) in Hin. unfold dict_values in Hin.
    apply in_map_iff in Hin. destruct Hin as [[pid r'] [<- Hin]].
    exists pid. split; [exact Hin |].
    now apply (store_fresh_entry file).
  - intros p Hp. rewrite create_patient_run.
    destruct (dict_mem (Patient.id p) file); [exact H |].
    apply (dict_set_forallb (fun kv => derived_fresh (fst kv) (snd kv)));
      [| exact H].
    now apply model_dump_fresh.
  - intros pid u. rewrite update_patient_run.
    destruct (dict_get pid file) as [r |]; [| exact H].
    destruct (Patient.init (merged pid u r)) as [p |] eqn:I; [| exact H].
    apply (dict_set_forallb (fun kv => derived_fresh (fst kv) (snd kv)));
      [| exact H].
    apply model_dump_fresh. now apply init_valid in I.
  - intros pid. rewrite delete_patient_run.
    destruct (dict_mem pid file); [| exact H].
    now apply dict_del_forallb.
Qed.

Lemma derived_fields_stored_then_served_witness :
  store_fresh Samples.one_patient = true /\
  view Samples.one_patient = (Ok Samples.one_patient, Samples.one_patient) /\
  store_fresh
    (snd (update_patient "P001" Samples.move_and_slim Samples.one_patient))
  = true.
Proof.
  split; [reflexivity |].
  destruct (derived_fields_stored_then_served Samples.one_patient eq_refl)
    as [Hv [_ [_ [_ [Hu _]]]]].
  split; [exact Hv | apply Hu].
Defined.

End DerivedFacts.

(* ------------------------------------------------------------------ *)
(** * Further properties of the premium service                        *)
(* ------------------------------------------------------------------ *)

Section PremiumFacts.

Import App App.UserInput.

(** X1.  The age group is "young" exactly below 25, "adult" exactly from
    25 to 44, "middle_aged" exactly from 45 to 59 and "senior" exactly
    from 60; no other label is produced. *)
Theorem age_group_brackets (u : t) :
  (age_group u = "young"%string <-> age u < 25) /\
  (age_group u = "adult"%string <-> 25 <= age u < 45) /\
  (age_group u = "middle_aged"%string <-> 45 <= age u < 60) /\
  (age_group u = "senior"%string <-> 60 <= age u) /\
  In (age_group u) ["young"; "adult"; "middle_aged"; "senior"]%string.
Proof.
  unfold age_group.
  destruct (age u <? 25) eqn:E1; destruct (age u <? 45) eqn:E2;
    destruct (age u <? 60) eqn:E3;
    try (apply Z.ltb_lt in E1); try (apply Z.ltb_ge in E1);
    try (apply Z.ltb_lt in E2); try (apply Z.ltb_ge in E2);
    try (apply Z.ltb_lt in E3); try (apply Z.ltb_ge in E3);
    (split; [| split; [| split; [| split]]]);
    try (split; intros; try discriminate; try reflexivity; lia);
    simpl; tauto.
Qed.



(** X3.  Every form the widgets let through satisfies the constraints of
    the endpoint, except for the height: the form accepts 2.5, the upper
    end of its range, while the endpoint wants a height below 2.5.  So an
    accepted form is a valid request exactly when its height is below
    2.5, and the form with the height at 2.5 is accepted and not valid. *)
Theorem accepted_form_valid_below_top_height (f : Frontend.form) :
  Frontend.accepted f = true ->
  (valid (Frontend.input_data f) = true <-> (Frontend.height f < 25 # 10)%Q) /\
  Frontend.accepted MoreSamples.tallest_form = true /\
  valid (Frontend.input_data MoreSamples.tallest_form) = false.
Proof.
  intros H. split; [| split; reflexivity].
  unfold Frontend.accepted in H. rewrite !andb_true_iff in H.
  destruct H as [[[[[[A1 A2] W] I] H1] H2] O].
  apply Z.leb_le in A1, A2. apply Qle_bool_iff in W, I, H1, H2.
  unfold valid, Frontend.input_data.
  cbn [age weight height income_lpa occupation].
  assert (B1 : (0 <? Frontend.age f) = true) by (apply Z.ltb_lt; lia).
  assert (B2 : (Frontend.age f <? 120) = true) by (apply Z.ltb_lt; lia).
  assert (B3 : Py.gt (Frontend.weight f) 0 = true)
    by (apply gt_true_iff; lra).
  assert (B4 : Py.gt (Frontend.height f) 0 = true)
    by (apply gt_true_iff; lra).
  assert (B5 : Py.gt (Frontend.income_lpa f) 0 = true)
    by (apply gt_true_iff; lra).
  change occupations with Frontend.occupation_options.
  rewrite B1, B2, B3, B4, B5, O. cbn [andb].
  rewrite !andb_true_r. apply lt_true_iff.
Qed.

Lemma accepted_form_valid_below_top_height_witness :
  Frontend.accepted MoreSamples.default_form = true /\
  (valid (Frontend.input_data MoreSamples.default_form) = true <->
   (Frontend.height MoreSamples.default_form < 25 # 10)%Q).
Proof.
  split; [reflexivity |].
  exact (proj1 (accepted_form_valid_below_top_height
                  MoreSamples.default_form eq_refl)).
Defined.

End PremiumFacts.

(* ------------------------------------------------------------------ *)
(** * Weight, bmi and the labels derived from it                       *)
(* ------------------------------------------------------------------ *)

Section MonotoneFacts.

Import Py.

Lemma round_half_even_bounds (x : Q) :
  Qfloor x <= round_half_even x <= Qfloor x + 1.
Proof.
  unfold round_half_even.
  destruct (x - inject_Z (Qfloor x) ?= 1 # 2)%Q;
    [destruct (Z.even (Qfloor x)) | |]; lia.
Qed.

(** Rounding to the nearest integer keeps the order. *)
Lemma round_half_even_mono (x y : Q) :
  (x <= y)%Q -> round_half_even x <= round_half_even y.
Proof.
  intros H. pose proof (Qfloor_resp_le x y H) as F.
  pose proof (round_half_even_bounds x) as Bx.
  pose proof (round_half_even_bounds y) as By.
  destruct (Z.eq_dec (Qfloor x) (Qfloor y)) as [E | N]; [| lia].
  clear Bx By. unfold round_half_even. rewrite <- E.
  destruct (x - inject_Z (Qfloor x) ?= 1 # 2)%Q eqn:Cx;
    destruct (y - inject_Z (Qfloor x) ?= 1 # 2)%Q eqn:Cy;
    try (destruct (Z.even (Qfloor x))); try lia; exfalso;
    first [apply Qeq_alt in Cx | apply Qlt_alt in Cx | apply Qgt_alt in Cx];
    first [apply Qeq_alt in Cy | apply Qlt_alt in Cy | apply Qgt_alt in Cy];
    lra.
Qed.

Lemma round_2_mono (x y : Q) : (x <= y)%Q -> (round x 2 <= round y 2)%Q.
Proof.
  intros H. rewrite !round_2_unfold. unfold Qle. simpl.
  apply Z.mul_le_mono_nonneg_r; [lia |].
  apply round_half_even_mono. lra.
Qed.

(** Dividing by the square of one height keeps the order of weights. *)
Lemma quotient_mono (w1 w2 h1 h2 : Q) :
  (h1 == h2)%Q -> (w1 <= w2)%Q -> (w1 / h1 ^ 2 <= w2 / h2 ^ 2)%Q.
Proof.
  intros Hh Hw. rewrite Hh. unfold Qdiv.
  apply Qmult_le_compat_r; [assumption |].
  apply Qinv_le_0_compat.
  change (h2 ^ 2)%Q with (h2 * h2)%Q. nra.
Qed.

(** X4.  Of two patients of equal height the heavier one never has the
    smaller bmi nor the lighter verdict, in the order Underweight,
    Normal, Overweight, Obese. *)
Theorem heavier_patient_no_lighter_verdict (p1 p2 : Main.Patient.t) :
  (Main.Patient.height p1 == Main.Patient.height p2)%Q ->
  (Main.Patient.weight p1 <= Main.Patient.weight p2)%Q ->
  (Main.Patient.bmi p1 <= Main.Patient.bmi p2)%Q /\
  Order.verdict_rank (Main.Patient.verdict p1)
  <= Order.verdict_rank (Main.Patient.verdict p2).
Proof.
  intros Hh Hw.
  assert (B : (Main.Patient.bmi p1 <= Main.Patient.bmi p2)%Q)
    by (apply round_2_mono, quotient_mono; assumption).
  split; [exact B |].
  unfold Main.Patient.verdict.
  destruct (lt (Main.Patient.bmi p1) (185 # 10)) eqn:A1;
    destruct (lt (Main.Patient.bmi p1) (25 # 1)) eqn:A2;
    destruct (lt (Main.Patient.bmi p1) (30 # 1)) eqn:A3;
    destruct (lt (Main.Patient.bmi p2) (185 # 10)) eqn:B1;
    destruct (lt (Main.Patient.bmi p2) (25 # 1)) eqn:B2;
    destruct (lt (Main.Patient.bmi p2) (30 # 1)) eqn:B3;
    try (vm_compute; discriminate);
    exfalso;
    try (apply lt_true_iff in A1); try (apply lt_false_iff in A1);
    try (apply lt_true_iff in A2); try (apply lt_false_iff in A2);
    try (apply lt_true_iff in A3); try (apply lt_false_iff in A3);
    try (apply lt_true_iff in B1); try (apply lt_false_iff in B1);
    try (apply lt_true_iff in B2); try (apply lt_false_iff in B2);
    try (apply lt_true_iff in B3); try (apply lt_false_iff in B3);
    lra.
Qed.

Lemma heavier_patient_no_lighter_verdict_witness :
  (Main.Patient.height MoreSamples.patient2
     == Main.Patient.height
          (Main.Patient.Build_t "P003" "Sana Malik" "Quetta" 35 "female"
             (18 # 10) (99 # 1)))%Q /\
  Order.verdict_rank (Main.Patient.verdict MoreSamples.patient2)
  <= Order.verdict_rank
       (Main.Patient.verdict
          (Main.Patient.Build_t "P003" "Sana Malik" "Quetta" 35 "female"
             (18 # 10) (99 # 1))).
Proof.
  split; [reflexivity |].
  refine (proj2 (heavier_patient_no_lighter_verdict MoreSamples.patient2
                   (Main.Patient.Build_t "P003" "Sana Malik" "Quetta" 35
                      "female" (18 # 10) (99 # 1)) _ _)).
  - reflexivity.
  - vm_compute. discriminate.
Defined.

(** X5.  Of two applicants of equal height, where the second smokes if
    the first does, the second being at least as heavy: the bmi of the
    second is at least that of the first, and its lifestyle risk is no
    lower in the order low, medium, high. *)
Theorem heavier_applicant_no_lower_risk (u1 u2 : App.UserInput.t) :
  (App.UserInput.height u1 == App.UserInput.height u2)%Q ->
  (App.UserInput.weight u1 <= App.UserInput.weight u2)%Q ->
  (App.UserInput.smoker u1 = true -> App.UserInput.smoker u2 = true) ->
  (App.UserInput.bmi u1 <= App.UserInput.bmi u2)%Q /\
  Order.risk_rank (App.UserInput.lifestyle_risk u1)
  <= Order.risk_rank (App.UserInput.lifestyle_risk u2).
Proof.
  intros Hh Hw Hs.
  assert (B : (App.UserInput.bmi u1 <= App.UserInput.bmi u2)%Q)
    by (apply quotient_mono; assumption).
  split; [exact B |].
  unfold App.UserInput.lifestyle_risk.
  destruct (App.UserInput.smoker u1);
    [rewrite (Hs eq_refl) | destruct (App.UserInput.smoker u2)];
    destruct (gt (App.UserInput.bmi u1) (30 # 1)) eqn:A1;
    destruct (gt (App.UserInput.bmi u1) (27 # 1)) eqn:A2;
    destruct (gt (App.UserInput.bmi u2) (30 # 1)) eqn:B1;
    destruct (gt (App.UserInput.bmi u2) (27 # 1)) eqn:B2;
    try (vm_compute; discriminate);
    exfalso;
    try (apply gt_true_iff in A1); try (apply gt_false_iff in A1);
    try (apply gt_true_iff in A2); try (apply gt_false_iff in A2);
    try (apply gt_true_iff in B1); try (apply gt_false_iff in B1);
    try (apply gt_true_iff in B2); try (apply gt_false_iff in B2);
    lra.
Qed.

Lemma heavier_applicant_no_lower_risk_witness :
  Order.risk_rank
    (App.UserInput.lifestyle_risk
       (App.UserInput.Build_t 30 (70 # 1) (17 # 10) (10 # 1) false
          "Lahore" "private_job"))
  <= Order.risk_rank (App.UserInput.lifestyle_risk Samples.applicant).
Proof.
  refine (proj2 (heavier_applicant_no_lower_risk
                   (App.UserInput.Build_t 30 (70 # 1) (17 # 10) (10 # 1)
                      false "Lahore" "private_job")
                   Samples.applicant _ _ _)).
  - reflexivity.
  - vm_compute. discriminate.
  - discriminate.
Defined.

End MonotoneFacts.

(* ------------------------------------------------------------------ *)
(** * More on dictionaries                                             *)
(* ------------------------------------------------------------------ *)

Section DictMoreFacts.

Import Py.

Context {V : Type}.
Implicit Types (k : string) (v : V) (d : dict V).

Lemma dict_mem_keys k d : dict_mem k d = true <-> In k (map fst d).
Proof.
  unfold dict_mem. rewrite existsb_exists, in_map_iff. split.
  - intros [kv [H E]]. apply String.eqb_eq in E. eauto.
  - intros [kv [E H]]. exists kv. split; [assumption |].
    now apply String.eqb_eq.
Qed.

Lemma dict_set_keys k v d :
  map fst (dict_set k v d)
  = if dict_mem k d then map fst d else map fst d ++ [k].
Proof.
  destruct (dict_mem k d) eqn:M.
  - now apply dict_set_present_keys.
  - rewrite dict_set_absent by assumption. now rewrite map_app.
Qed.

Lemma dict_set_NoDup k v d :
  NoDup (map fst d) -> NoDup (map fst (dict_set k v d)).
Proof.
  intros N. rewrite dict_set_keys. destruct (dict_mem k d) eqn:M.
  - exact N.
  - apply NoDup_app; [exact N | repeat constructor; simpl; tauto |].
    intros a Ha [<- | []].
    apply dict_mem_keys in Ha. congruence.
Qed.

Lemma dict_del_In k d (kv : string * V) :
  In kv (dict_del k d) -> In kv d.
Proof.
  induction d as [| [k' v'] d IH]; simpl; [tauto |].
  destruct (String.eqb k k'); simpl; [tauto |].
  intros [H | H]; [now left | right; now apply IH].
Qed.

Lemma dict_del_NoDup k d :
  NoDup (map fst d) -> NoDup (map fst (dict_del k d)).
Proof.
  induction d as [| [k' v'] d IH]; simpl; [trivial |].
  intros N. inversion N as [| ? ? Hn N']; subst.
  destruct (String.eqb k k'); simpl; [assumption |].
  constructor; [| now apply IH].
  intros Hin. apply Hn. apply in_map_iff in Hin.
  destruct Hin as [kv [E H]]. apply dict_del_In in H.
  apply in_map_iff. eauto.
Qed.

Lemma dict_get_del_other k k' d :
  k' <> k -> dict_get k' (dict_del k d) = dict_get k' d.
Proof.
  intros N. apply String.eqb_neq in N.
  induction d as [| [k0 v0] d IH]; simpl; [reflexivity |].
  destruct (String.eqb k k0) eqn:E; simpl.
  - apply String.eqb_eq in E. subst k0. now rewrite N.
  - destruct (String.eqb k' k0); [reflexivity | exact IH].
Qed.

(** With unique keys a deleted key is gone. *)
Lemma dict_get_del_same k d :
  NoDup (map fst d) -> dict_get k (dict_del k d) = None.
Proof.
  induction d as [| [k' v'] d IH]; simpl; [reflexivity |].
  intros N. inversion N as [| ? ? Hn N']; subst.
  destruct (String.eqb k k') eqn:E; simpl.
  - apply String.eqb_eq in E. subst k'.
    apply dict_mem_false. destruct (dict_mem k d) eqn:M; [| reflexivity].
    apply dict_mem_keys in M. contradiction.
  - rewrite E. now apply IH.
Qed.

Lemma dict_del_absent k d : dict_mem k d = false -> dict_del k d = d.
Proof.
  induction d as [| [k' v'] d IH]; simpl; [reflexivity |].
  destruct (String.eqb k k'); simpl; [discriminate |].
  intros H. now rewrite IH.
Qed.

(** Deleting the key that was appended last gives the dictionary back. *)
Lemma dict_del_appended k v d :
  dict_mem k d = false -> dict_del k (d ++ [(k, v)]) = d.
Proof.
  induction d as [| [k' v'] d IH]; simpl.
  - now rewrite String.eqb_refl.
  - destruct (String.eqb k k'); simpl; [discriminate |].
    intros H. now rewrite IH.
Qed.

(** Writing the value a key already has changes nothing. *)
Lemma dict_set_same k v d : dict_get k d = Some v -> dict_set k v d = d.
Proof.
  induction d as [| [k' v'] d IH]; simpl; [discriminate |].
  destruct (String.eqb k k') eqn:E.
  - intros [= ->]. reflexivity.
  - intros H. now rewrite IH.
Qed.

End DictMoreFacts.

(* ------------------------------------------------------------------ *)
(** * The life of a record: create, read, delete                       *)
(* ------------------------------------------------------------------ *)

Section LifecycleFacts.

Import Py Main Props.

(** X6.  A valid patient whose computed fields can be evaluated, created
    under a new id, is read back at once: reading that id returns the
    dump that was written, the dump decodes to the very patient that was
    created, and reading any other id gives what it gave before. *)
Theorem create_then_read (p : Patient.t) (file : store) :
  Patient.valid p = true ->
  Computed.raises p = None ->
  dict_mem (Patient.id p) file = false ->
  view_patient (Patient.id p) (snd (create_patient p file))
  = (Ok (Patient.model_dump p), snd (create_patient p file)) /\
  parse (Patient.id p) (Patient.model_dump p) = Some p /\
  (forall k, k <> Patient.id p ->
     fst (view_patient k (snd (create_patient p file)))
     = fst (view_patient k file)).
Proof.
  intros Hv _ Hm. rewrite create_patient_run, Hm. simpl snd.
  split; [| split].
  - now rewrite view_patient_run, dict_get_set_same.
  - rewrite parse_model_dump by assumption. now destruct p.
  - intros k N. rewrite !view_patient_run.
    rewrite dict_get_set_other by assumption.
    now destruct (dict_get k file).
Qed.

Lemma create_then_read_witness :
  Patient.valid MoreSamples.patient2 = true /\
  Computed.raises MoreSamples.patient2 = None /\
  dict_mem (Patient.id MoreSamples.patient2) Samples.one_patient = false /\
  fst (view_patient "P002"
         (snd (create_patient MoreSamples.patient2 Samples.one_patient)))
  = Ok (Patient.model_dump MoreSamples.patient2).
Proof.
  split; [reflexivity |]. split; [reflexivity |]. split; [reflexivity |].
  destruct (create_then_read MoreSamples.patient2 Samples.one_patient
              eq_refl eq_refl eq_refl) as [H _].
  change (Patient.id MoreSamples.patient2) with "P002"%string in H.
  now rewrite H.
Defined.

(** X7.  Creating is not overwriting.  After a patient whose computed
    fields can be evaluated was submitted under some id, whether that
    succeeded or met a conflict, a second submission under the same id,
    of any patient, fails with 400 and leaves the document as the first
    one left it; if the id was new, the record of the first submission
    is the one that stays. *)
Theorem second_create_conflicts (p p' : Patient.t) (file : store) :
  Patient.id p' = Patient.id p ->
  Computed.raises p = None ->
  create_patient p' (snd (create_patient p file))
  = (Raise (HTTPException 400 "Patient already exists"),
     snd (create_patient p file)) /\
  (dict_mem (Patient.id p) file = false ->
   dict_get (Patient.id p)
     (snd (create_patient p' (snd (create_patient p file))))
   = Some (Patient.model_dump p)).
Proof.
  intros E _.
  assert (M : dict_mem (Patient.id p') (snd (create_patient p file)) = true).
  { rewrite E, create_patient_run.
    destruct (dict_mem (Patient.id p) file) eqn:M; simpl; [exact M |].
    now rewrite dict_mem_set, String.eqb_refl. }
  assert (R : create_patient p' (snd (create_patient p file))
              = (Raise (HTTPException 400 "Patient already exists"),
                 snd (create_patient p file)))
    by now rewrite (create_patient_run p'), M.
  split; [exact R |].
  intros Hm. rewrite R. simpl snd. rewrite create_patient_run, Hm. simpl.
  apply dict_get_set_same.
Qed.

Lemma second_create_conflicts_witness :
  Patient.id Samples.patient = Patient.id Samples.patient /\
  Computed.raises Samples.patient = None /\
  create_patient Samples.patient (snd (create_patient Samples.patient []))
  = (Raise (HTTPException 400 "Patient already exists"),
     Samples.one_patient).
Proof.
  split; [reflexivity |]. split; [reflexivity |].
  exact (proj1 (second_create_conflicts Samples.patient Samples.patient []
                  eq_refl eq_refl)).
Defined.

(** X8.  Deleting a patient, one whose computed fields can be evaluated,
    right after creating it under a new id gives the document back
    exactly as it was. *)
Theorem create_then_delete (p : Patient.t) (file : store) :
  dict_mem (Patient.id p) file = false ->
  Computed.raises p = None ->
  delete_patient (Patient.id p) (snd (create_patient p file))
  = (Ok (Response 200 "patient deleted"), file).
Proof.
  intros Hm _. rewrite create_patient_run, Hm. simpl snd.
  rewrite delete_patient_run, dict_mem_set, String.eqb_refl. simpl.
  rewrite dict_set_absent by assumption.
  now rewrite dict_del_appended.
Qed.

Lemma create_then_delete_witness :
  dict_mem (Patient.id MoreSamples.patient2) Samples.one_patient = false /\
  Computed.raises MoreSamples.patient2 = None /\
  delete_patient "P002"
    (snd (create_patient MoreSamples.patient2 Samples.one_patient))
  = (Ok (Response 200 "patient deleted"), Samples.one_patient).
Proof.
  split; [reflexivity |]. split; [reflexivity |].
  exact (create_then_delete MoreSamples.patient2 Samples.one_patient
           eq_refl eq_refl).
Defined.

(** X9.  In a document with one entry per id: deleting an id that is
    not there fails with 404 and changes nothing; deleting one that is
    there answers 200, after which reading it, deleting it again and
    updating it all fail with 404, while every other id reads as
    before. *)
Theorem delete_then_gone pid (file : store) :
  NoDup (map fst file) ->
  (dict_mem pid file = false ->
   delete_patient pid file
   = (Raise (HTTPException 404 "Patient Data not found"), file)) /\
  (dict_mem pid file = true ->
   delete_patient pid file
   = (Ok (Response 200 "patient deleted"), dict_del pid file) /\
   view_patient pid (dict_del pid file)
   = (Raise (HTTPException 404 "patient data not found"), dict_del pid file) /\
   delete_patient pid (dict_del pid file)
   = (Raise (HTTPException 404 "Patient Data not found"), dict_del pid file) /\
   (forall u,
      update_patient pid u (dict_del pid file)
      = (Raise (HTTPException 404 "Patient data not found"),
         dict_del pid file)) /\
   (forall k, k <> pid ->
      view_patient k (dict_del pid file)
      = (fst (view_patient k file), dict_del pid file))).
Proof.
  intros N. rewrite delete_patient_run.
  split; [intros ->; reflexivity |].
  intros M. rewrite M.
  pose proof (dict_get_del_same pid file N) as G.
  split; [reflexivity |]. split; [| split; [| split]].
  - now rewrite view_patient_run, G.
  - rewrite delete_patient_run.
    apply dict_mem_false in G. now rewrite G.
  - intros u. now rewrite update_patient_run, G.
  - intros k Hk. rewrite !view_patient_run.
    rewrite dict_get_del_other by assumption.
    now destruct (dict_get k file).
Qed.

Lemma delete_then_gone_witness :
  NoDup (map fst Samples.four) /\
  dict_mem "b" Samples.four = true /\
  view_patient "b" (dict_del "b" Samples.four)
  = (Raise (HTTPException 404 "patient data not found"),
     dict_del "b" Samples.four).
Proof.
  assert (N : NoDup (map fst Samples.four)).
  { simpl. repeat constructor; simpl; intuition discriminate. }
  split; [exact N |]. split; [reflexivity |].
  destruct (delete_then_gone "b" Samples.four N) as [_ H].
  exact (proj1 (proj2 (H eq_refl))).
Defined.

(** X10.  No handler gives an id a second entry: from a document with
    one entry per id, creating, updating and deleting lead to such a
    document again.  An update never changes which ids there are nor
    their order, a create of a patient whose computed fields can be
    evaluated appends exactly the id if it is new and changes no id
    otherwise, a delete removes ids only. *)
Theorem one_entry_per_id (file : store) :
  NoDup (map fst file) ->
  (forall p, NoDup (map fst (snd (create_patient p file)))) /\
  (forall pid u, NoDup (map fst (snd (update_patient pid u file)))) /\
  (forall pid, NoDup (map fst (snd (delete_patient pid file)))) /\
  (forall pid u,
     map fst (snd (update_patient pid u file)) = map fst file) /\
  (forall p,
     Computed.raises p = None ->
     map fst (snd (create_patient p file))
     = if dict_mem (Patient.id p) file then map fst file
       else map fst file ++ [Patient.id p]) /\
  (forall pid k,
     In k (map fst (snd (delete_patient pid file))) -> In k (map fst file)).
Proof.
  intros N.
  assert (U : forall pid u,
            map fst (snd (update_patient pid u file)) = map fst file).
  { intros pid u. rewrite update_patient_run.
    destruct (dict_get pid file) as [r |] eqn:G; [| reflexivity].
    destruct (Patient.init (merged pid u r)); [| reflexivity].
    simpl. apply dict_set_present_keys, dict_mem_get. eauto. }
  split; [| split; [| split; [| split; [| split]]]].
  - intros p. rewrite create_patient_run.
    destruct (dict_mem (Patient.id p) file); [exact N |].
    now apply dict_set_NoDup.
  - intros pid u. now rewrite U.
  - intros pid. rewrite delete_patient_run.
    destruct (dict_mem pid file); [| exact N].
    now apply dict_del_NoDup.
  - exact U.
  - intros p _. rewrite create_patient_run.
    destruct (dict_mem (Patient.id p) file) eqn:M; [reflexivity |].
    simpl. now rewrite dict_set_keys, M.
  - intros pid k. rewrite delete_patient_run.
    destruct (dict_mem pid file); [| trivial].
    simpl. rewrite !in_map_iff. intros [kv [E H]].
    apply dict_del_In in H. eauto.
Qed.

Lemma one_entry_per_id_witness :
  NoDup (map fst Samples.one_patient) /\
  NoDup (map fst (snd (create_patient MoreSamples.patient2
                         Samples.one_patient))).
Proof.
  assert (N : NoDup (map fst Samples.one_patient)).
  { simpl. repeat constructor; simpl; tauto. }
  split; [exact N |].
  exact (proj1 (one_entry_per_id Samples.one_patient N)
           MoreSamples.patient2).
Defined.

End LifecycleFacts.

(* ------------------------------------------------------------------ *)
(** * More on updates                                                  *)
(* ------------------------------------------------------------------ *)

Section UpdateMoreFacts.

Import Py Main Props.

(** X11.  Whatever the stored record looked like, a successful update
    answers 200 and leaves under the id the dump of a patient that
    satisfies the field constraints: the eight fields in their order and
    no other key, with the bmi and verdict of its own height and
    weight.  Thus an update that sends nothing repairs a record whose
    stored bmi and verdict were wrong. *)
Theorem update_normalises pid (u : PatientUpdate.t) (file file' : store)
  (resp : JSONResponse) :
  update_patient pid u file = (Ok resp, file') ->
  resp = Response 200 "Patient Data Updated" /\
  exists p,
    dict_get pid file' = Some (Patient.model_dump p) /\
    Patient.valid p = true /\
    Patient.id p = pid /\
    map fst (Patient.model_dump p) = stored_fields /\
    derived_fresh pid (Patient.model_dump p) = true.
Proof.
  rewrite update_patient_run.
  destruct (dict_get pid file) as [r |]; [| discriminate].
  destruct (Patient.init (merged pid u r)) as [p |] eqn:I; [| discriminate].
  intros [= <- <-]. split; [reflexivity |].
  exists p. pose proof (init_valid _ _ I) as Hv.
  split; [apply dict_get_set_same |]. split; [exact Hv |].
  split; [| split; [reflexivity | now apply model_dump_fresh]].
  apply init_some in I. destruct I as [I _].
  apply required_some in I. destruct I as [v [G [C _]]].
  unfold merged in G. rewrite dict_get_set_same in G.
  injection G as <-. simpl in C. now injection C.
Qed.

Lemma update_normalises_witness :
  derived_fresh "P007" Samples.stale_record = false /\
  update_patient "P007" MoreSamples.nothing_sent Samples.stale
  = (Ok (Response 200 "Patient Data Updated"),
     [("P007"%string,
       [("name"%string, VStr "Bilal Ahmed");
        ("city"%string, VStr "Karachi");
        ("age"%string, VInt 41);
        ("gender"%string, VStr "male");
        ("height"%string, VFloat (2 # 1));
        ("weight"%string, VFloat (80 # 1));
        ("bmi"%string, VFloat (Qmake 2000 100));
        ("verdict"%string, VStr "Normal")])]) /\
  exists p,
    dict_get "P007"
      (snd (update_patient "P007" MoreSamples.nothing_sent Samples.stale))
    = Some (Patient.model_dump p) /\
    derived_fresh "P007" (Patient.model_dump p) = true.
Proof.
  split; [reflexivity |]. split; [reflexivity |].
  destruct (update_normalises "P007" MoreSamples.nothing_sent Samples.stale
              (snd (update_patient "P007" MoreSamples.nothing_sent
                      Samples.stale))
              (Response 200 "Patient Data Updated") eq_refl)
    as [_ [p [H1 [_ [_ [_ H2]]]]]].
  exists p. split; assumption.
Defined.

(** A field validated once is validated to the same value when the
    stored record is replaced by the dump of the patient it gave. *)
Lemma required_again {A} pid u (r : record) (p : Patient.t) k
  (inj : A -> value) (conv : value -> option A) (check : A -> bool) (a : A) :
  k <> "id"%string ->
  required (merged pid u r) k conv check = Some a ->
  dict_get k (Patient.model_dump p) = Some (inj a) ->
  conv (inj a) = Some a ->
  required (merged pid u (Patient.model_dump p)) k conv check = Some a.
Proof.
  intros N R D C. unfold required in *.
  rewrite merged_get in * by assumption.
  destruct (dict_get k (PatientUpdate.model_dump u)) as [v |];
    [exact R |].
  rewrite D, C.
  destruct (dict_get k r) as [v |]; [| discriminate].
  destruct (conv v) as [a' |]; [| discriminate].
  destruct (check a') eqn:K; [| discriminate].
  injection R as <-. now rewrite K.
Qed.

Lemma init_merged_again pid u (r : record) (p : Patient.t) :
  Patient.init (merged pid u r) = Some p ->
  Patient.init (merged pid u (Patient.model_dump p)) = Some p.
Proof.
  intros I. apply init_some in I.
  destruct I as [Ei [En [Ec [Ea [Eg [Eh Ew]]]]]].
  apply init_some.
  split; [| split; [| split; [| split; [| split; [| split]]]]].
  - unfold required in *. now rewrite merged_get_id in *.
  - now apply (required_again pid u r p "name" VStr).
  - now apply (required_again pid u r p "city" VStr).
  - now apply (required_again pid u r p "age" VInt).
  - now apply (required_again pid u r p "gender" VStr).
  - now apply (required_again pid u r p "height" VFloat).
  - now apply (required_again pid u r p "weight" VFloat).
Qed.

(** X12.  Sending the same payload a second time changes nothing: after
    a successful update the same update succeeds again and leaves the
    document exactly as the first one left it. *)
Theorem update_twice_as_once pid (u : PatientUpdate.t) (file file' : store)
  (resp : JSONResponse) :
  update_patient pid u file = (Ok resp, file') ->
  update_patient pid u file' = (Ok resp, file').
Proof.
  rewrite update_patient_run.
  destruct (dict_get pid file) as [r |]; [| discriminate].
  destruct (Patient.init (merged pid u r)) as [p |] eqn:I; [| discriminate].
  intros [= <- <-].
  rewrite update_patient_run, dict_get_set_same.
  rewrite (init_merged_again pid u r p I).
  now rewrite dict_set_set.
Qed.

Lemma update_twice_as_once_witness :
  update_patient "P001" Samples.move_and_slim
    (snd (update_patient "P001" Samples.move_and_slim Samples.one_patient))
  = update_patient "P001" Samples.move_and_slim Samples.one_patient.
Proof.
  exact (update_twice_as_once "P001" Samples.move_and_slim
           Samples.one_patient
           (snd (update_patient "P001" Samples.move_and_slim
                   Samples.one_patient))
           (Response 200 "Patient Data Updated") eq_refl).
Defined.

(** The constructor looks at the seven declared keys only. *)
Lemma init_ext (kw1 kw2 : record) :
  (forall k, In k ("id"%string :: input_fields) ->
     dict_get k kw1 = dict_get k kw2) ->
  Patient.init kw1 = Patient.init kw2.
Proof.
  intros H. unfold Patient.init.
  rewrite (required_ext kw1 kw2 "id") by (apply H; simpl; tauto).
  rewrite (required_ext kw1 kw2 "name") by (apply H; simpl; tauto).
  rewrite (required_ext kw1 kw2 "city") by (apply H; simpl; tauto).
  rewrite (required_ext kw1 kw2 "age") by (apply H; simpl; tauto).
  rewrite (required_ext kw1 kw2 "gender") by (apply H; simpl; tauto).
  rewrite (required_ext kw1 kw2 "height" as_float)
    by (apply H; simpl; tauto).
  rewrite (required_ext kw1 kw2 "weight" as_float)
    by (apply H; simpl; tauto).
  reflexivity.
Qed.

(** X13.  An update reads the six input fields of the stored record and
    nothing else: replace the stored record by any record with the same
    six input fields (another bmi, another verdict, more keys) and the
    update gives the same answer and, when it succeeds, the same
    document. *)
Theorem update_reads_input_fields_only pid (u : PatientUpdate.t)
  (file : store) (r1 r2 : record) :
  dict_get pid file = Some r1 ->
  (forall k, In k input_fields -> dict_get k r2 = dict_get k r1) ->
  fst (update_patient pid u (dict_set pid r2 file))
  = fst (update_patient pid u file) /\
  (forall resp, fst (update_patient pid u file) = Ok resp ->
     snd (update_patient pid u (dict_set pid r2 file))
     = snd (update_patient pid u file)).
Proof.
  intros G H. rewrite !update_patient_run, G, dict_get_set_same.
  assert (E : Patient.init (merged pid u r2) = Patient.init (merged pid u r1)).
  { apply init_ext. intros k [<- | Hk].
    - now rewrite !merged_get_id.
    - rewrite !merged_get by now apply input_field_not_id.
      now rewrite (H k Hk). }
  rewrite E. destruct (Patient.init (merged pid u r1)) as [p |]; simpl.
  - split; [reflexivity |]. intros _ _. apply dict_set_set.
  - split; [reflexivity | discriminate].
Qed.

Lemma update_reads_input_fields_only_witness :
  dict_get "P007" Samples.stale = Some Samples.stale_record /\
  fst (update_patient "P007" Samples.move_and_slim
         (dict_set "P007"
            (dict_set "bmi" (VFloat (Qmake 2000 100)) Samples.stale_record)
            Samples.stale))
  = fst (update_patient "P007" Samples.move_and_slim Samples.stale).
Proof.
  split; [reflexivity |].
  refine (proj1 (update_reads_input_fields_only "P007" Samples.move_and_slim
                   Samples.stale Samples.stale_record
                   (dict_set "bmi" (VFloat (Qmake 2000 100))
                      Samples.stale_record) eq_refl _)).
  intros k Hk. apply dict_get_set_other.
  simpl in Hk. intros ->. intuition discriminate.
Defined.



End UpdateMoreFacts.

(* ------------------------------------------------------------------ *)
(** * More on sorting                                                  *)
(* ------------------------------------------------------------------ *)

Section SortMoreFacts.

Import Py Main Props.

Lemma sort_patient_unchanged sort_by order (file : store) :
  snd (sort_patient sort_by order file) = file.
Proof.
  unfold sort_patient, bind, load_data, raise, ret.
  destruct (negb (str_in sort_by _)); [reflexivity |].
  destruct (negb (str_in _ _)); [reflexivity |].
  now destruct (sorted _ _ _).
Qed.

(** X15.  The sort handler never changes the document, whatever it
    answers.  A field other than height, weight and bmi is refused with
    400, before the order is looked at, and the message names no field:
    its braces are literal text.  With a good field, an order that is
    given and is neither "asc" nor "desc" is refused with 400; with a
    good field and a good order no 400 is raised. *)
Theorem sort_request_errors sort_by order (file : store) :
  snd (sort_patient sort_by order file) = file /\
  (~ In sort_by ["height"; "weight"; "bmi"]%string ->
   fst (sort_patient sort_by order file)
   = Raise (HTTPException 400 "Invalid field select from {valid_fields}")) /\
  (In sort_by ["height"; "weight"; "bmi"]%string ->
   ~ In order [None; Some "asc"; Some "desc"]%string ->
   fst (sort_patient sort_by order file)
   = Raise (HTTPException 400 "Invalid order select between asc and desc")) /\
  (In sort_by ["height"; "weight"; "bmi"]%string ->
   In order [None; Some "asc"; Some "desc"]%string ->
   forall status detail,
     fst (sort_patient sort_by order file)
     <> Raise (HTTPException status detail)).
Proof.
  split; [apply sort_patient_unchanged |].
  unfold sort_patient, bind, load_data, raise, ret.
  split; [| split].
  - intros N. apply str_in_false_iff in N. now rewrite N.
  - intros Hf Ho. apply str_in_iff in Hf. rewrite Hf. simpl negb. cbv iota.
    destruct order as [o |]; [| exfalso; apply Ho; simpl; tauto].
    assert (E : str_in o ["asc"; "desc"]%string = false).
    { apply str_in_false_iff. intros [<- | [<- | []]]; apply Ho; simpl; tauto. }
    now rewrite E.
  - intros Hf Ho status detail. apply str_in_iff in Hf. rewrite Hf.
    simpl negb. cbv iota.
    assert (E : str_in (match order with Some o => o | None => "asc"%string end)
                  ["asc"; "desc"]%string = true).
    { simpl in Ho. destruct Ho as [<- | [<- | [<- | []]]]; reflexivity. }
    rewrite E. cbn [negb]. cbv beta iota.
    match goal with
    | |- context [sorted ?l ?k ?b] => destruct (sorted l k b)
    end; discriminate.
Qed.

Lemma value_lt_null_l (b : value) : value_lt VNone b = None.
Proof. reflexivity. Qed.

Lemma value_lt_null_r (a : value) : value_lt a VNone = None.
Proof. now destruct a. Qed.

(** The test for a [null] key. *)
Lemma null_key_dec {A} (key : A -> value) (l : list A) :
  (exists x, In x l /\ key x = VNone) \/ (forall x, In x l -> key x <> VNone).
Proof.
  induction l as [| a l [[x [H E]] | H]].
  - right. intros x [].
  - left. exists x. simpl. auto.
  - destruct (key a) eqn:K.
    + left. exists a. simpl. auto.
    + right. intros x [<- | Hx]; [congruence | now apply H].
    + right. intros x [<- | Hx]; [congruence | now apply H].
    + right. intros x [<- | Hx]; [congruence | now apply H].
Qed.

(** Two or more elements, one of them with a [null] key, cannot be
    sorted: some comparison has [null] on one side. *)
Lemma sort_null {A} (key : A -> value) (l : list A) :
  (2 <= List.length l)%nat ->
  (exists x, In x l /\ key x = VNone) ->
  sort key l = None.
Proof.
  induction l as [| x l IH]; simpl; [lia |].
  intros Hlen Hnull.
  destruct (sort key l) as [s |] eqn:S; [| reflexivity].
  pose proof (sort_perm key l s S) as P.
  pose proof (Permutation_length P) as L.
  destruct l as [| y l'].
  { simpl in Hlen. lia. }
  destruct s as [| z s']; [simpl in L; lia |].
  simpl.
  destruct (null_key_dec key (y :: l')) as [N | N].
  - destruct l' as [| y' l''].
    + simpl in S. injection S as <- <-.
      destruct N as [w [[<- | []] E]]. now rewrite E, value_lt_null_l.
    + assert (L2 : (2 <= List.length (y :: y' :: l''))%nat) by (simpl; lia).
      discriminate (IH L2 N).
  - destruct Hnull as [w [[<- | Hw] E]].
    + now rewrite E, value_lt_null_r.
    + exfalso. exact (N w Hw E).
Qed.

(** X16.  A [null] in the sort field is not a missing field: it is the
    key itself.  With a good field and order, a document of two or more
    records one of which holds [null] in the field makes the handler
    fail with a type error, the document staying as it was. *)
Theorem sort_null_key_fails sort_by order (file : store) :
  In sort_by ["height"; "weight"; "bmi"]%string ->
  In order [None; Some "asc"; Some "desc"]%string ->
  (2 <= List.length file)%nat ->
  (exists r, In r (dict_values file) /\ dict_get sort_by r = Some VNone) ->
  sort_patient sort_by order file = (Raise TypeError, file).
Proof.
  intros Hf Ho Hlen [r [Hin Hr]]. apply str_in_iff in Hf.
  assert (K : sort_key sort_by r = VNone)
    by (unfold sort_key, dict_get_default; now rewrite Hr).
  assert (Hl : (2 <= List.length (dict_values file))%nat)
    by (unfold dict_values; now rewrite List.length_map).
  assert (S1 : sort (sort_key sort_by) (dict_values file) = None)
    by (apply sort_null; eauto).
  assert (S2 : sort (sort_key sort_by) (rev (dict_values file)) = None).
  { apply sort_null; [now rewrite List.length_rev |].
    exists r. split; [now apply in_rev in Hin | exact K]. }
  unfold sort_patient, bind, load_data, raise, ret. rewrite Hf.
  unfold sorted. fold (sort_key sort_by).
  simpl in Ho. destruct Ho as [<- | [<- | [<- | []]]]; simpl;
    fold (sort_key sort_by); rewrite ?S1, ?S2; reflexivity.
Qed.

Lemma sort_null_key_fails_witness :
  (2 <= List.length MoreSamples.null_height)%nat /\
  (exists r, In r (dict_values MoreSamples.null_height) /\
             dict_get "height" r = Some VNone) /\
  sort_patient "height" None MoreSamples.null_height
  = (Raise TypeError, MoreSamples.null_height).
Proof.
  assert (L : (2 <= List.length MoreSamples.null_height)%nat) by (simpl; lia).
  assert (E : exists r, In r (dict_values MoreSamples.null_height) /\
                        dict_get "height" r = Some VNone).
  { exists [("height"%string, VNone)]. split; [simpl; tauto | reflexivity]. }
  split; [exact L |]. split; [exact E |].
  apply (sort_null_key_fails "height" None MoreSamples.null_height);
    [simpl; tauto | simpl; tauto | exact L | exact E].
Defined.

End SortMoreFacts.

Section CompleteUpdateFacts.

Import Py Main Props.

(** A field sent with a value is validated to that value, whatever is
    stored. *)
Lemma merged_sent {A} pid u (r : record) k (inj : A -> value)
  (conv : value -> option A) (check : A -> bool)
  (f : PatientUpdate.field A) (old : A) :
  k <> "id"%string ->
  dict_get k (PatientUpdate.model_dump u)
    = dict_get k (PatientUpdate.dump_field k inj f) ->
  (forall a, conv (inj a) = Some a) ->
  Payload.has_value f = true ->
  PatientUpdate.field_ok check f = true ->
  required (merged pid u r) k conv check = Some (pick f old).
Proof.
  intros N D C Hs Hok. destruct f as [| [a |]]; try discriminate.
  unfold required. rewrite merged_get, D by assumption. simpl in *.
  now rewrite String.eqb_refl, C, Hok.
Qed.

(** X17.  A valid payload that sends a value for each of the six fields,
    with a height for which the computed fields can be evaluated,
    replaces the record: for an id of the document the update succeeds
    whatever is stored under it, even a record that no patient could be,
    and what it stores is made of the sent values alone. *)
Theorem complete_update_replaces pid (u : PatientUpdate.t) (file : store)
  (p0 : Patient.t) :
  dict_mem pid file = true ->
  Payload.complete u = true ->
  PatientUpdate.valid u = true ->
  Patient.id p0 = pid ->
  Computed.raises (merge_spec u p0) = None ->
  update_patient pid u file
  = (Ok (Response 200 "Patient Data Updated"),
     dict_set pid (Patient.model_dump (merge_spec u p0)) file) /\
  PatientUpdate.name u = PatientUpdate.Sent (Some (Patient.name (merge_spec u p0))) /\
  PatientUpdate.city u = PatientUpdate.Sent (Some (Patient.city (merge_spec u p0))) /\
  PatientUpdate.age u = PatientUpdate.Sent (Some (Patient.age (merge_spec u p0))) /\
  PatientUpdate.gender u
  = PatientUpdate.Sent (Some (Patient.gender (merge_spec u p0))) /\
  PatientUpdate.height u
  = PatientUpdate.Sent (Some (Patient.height (merge_spec u p0))) /\
  PatientUpdate.weight u
  = PatientUpdate.Sent (Some (Patient.weight (merge_spec u p0))).
Proof.
  intros M Hc Hv Hid _. apply dict_mem_get in M. destruct M as [r G].
  unfold Payload.complete in Hc. rewrite !andb_true_iff in Hc.
  destruct Hc as [[[[[Sn Sc] Sa] Sg] Sh] Sw].
  unfold PatientUpdate.valid in Hv. rewrite !andb_true_iff in Hv.
  destruct Hv as [[[Va Vg] Vh] Vw].
  split.
  - rewrite update_patient_run, G.
    assert (I : Patient.init (merged pid u r) = Some (merge_spec u p0)).
    { apply init_some. unfold merge_spec. simpl.
      split; [| split; [| split; [| split; [| split; [| split]]]]].
      - unfold required. rewrite merged_get_id. simpl. now rewrite Hid.
      - apply (merged_sent pid u r "name" VStr); auto using model_dump_name.
        + discriminate.
        + now destruct (PatientUpdate.name u) as [| [a |]].
      - apply (merged_sent pid u r "city" VStr); auto using model_dump_city.
        + discriminate.
        + now destruct (PatientUpdate.city u) as [| [a |]].
      - apply (merged_sent pid u r "age" VInt); auto using model_dump_age.
        discriminate.
      - apply (merged_sent pid u r "gender" VStr);
          auto using model_dump_gender.
        discriminate.
      - apply (merged_sent pid u r "height" VFloat);
          auto using model_dump_height.
        discriminate.
      - apply (merged_sent pid u r "weight" VFloat);
          auto using model_dump_weight.
        discriminate. }
    now rewrite I.
  - unfold merge_spec. simpl.
    destruct (PatientUpdate.name u) as [| [? |]]; try discriminate.
    destruct (PatientUpdate.city u) as [| [? |]]; try discriminate.
    destruct (PatientUpdate.age u) as [| [? |]]; try discriminate.
    destruct (PatientUpdate.gender u) as [| [? |]]; try discriminate.
    destruct (PatientUpdate.height u) as [| [? |]]; try discriminate.
    destruct (PatientUpdate.weight u) as [| [? |]]; try discriminate.
    repeat split.
Qed.

Lemma complete_update_replaces_witness :
  dict_mem "P009" Payload.broken = true /\
  Payload.complete Payload.everything = true /\
  PatientUpdate.valid Payload.everything = true /\
  parse "P009" [("name"%string, VNone); ("age"%string, VInt 300)] = None /\
  Computed.raises
    (merge_spec Payload.everything (Patient.Build_t "P009" "" "" 0 "" 0 0))
  = None /\
  update_patient "P009" Payload.everything Payload.broken
  = (Ok (Response 200 "Patient Data Updated"),
     dict_set "P009"
       (Patient.model_dump
          (merge_spec Payload.everything
             (Patient.Build_t "P009" "" "" 0 "" 0 0)))
       Payload.broken).
Proof.
  split; [reflexivity |]. split; [reflexivity |].
  split; [reflexivity |]. split; [reflexivity |]. split; [reflexivity |].
  exact (proj1 (complete_update_replaces "P009" Payload.everything
                  Payload.broken (Patient.Build_t "P009" "" "" 0 "" 0 0)
                  eq_refl eq_refl eq_refl eq_refl eq_refl)).
Defined.

End CompleteUpdateFacts.
